(** * AdoptiPet server: pagination helper and pet recommendations

    A shallow embedding of [utils/pagination__collection.js]
    ([paginateCollection]) and of [petRecommendations.js]
    ([getPetRecommendations], [getAdvancedPetRecommendations]).

    Conventions of the embedding:
    - a JavaScript number that holds an integer is a [Z]; the source's
      numbers are IEEE doubles, which agree with [Z] on the safe-integer
      range, and the 64-bit range limits of the store are not modelled;
    - a score computed by [$divide] is an exact rational ([Q]), where the
      store rounds to a double: no theorem below rests on the order of two
      computed scores, and the scenarios use ages of whole days, whose
      scores are whole numbers in either arithmetic;
    - a JavaScript string is a [string] read as a sequence of code units
      below 256;
    - an awaited store call is a value of the error monad [result]: [Err]
      stands for a rejected promise (a thrown store error);
    - a BSON / JSON document is an ordered association list. *)

From Stdlib Require Import ZArith QArith Lia Ascii.
From stdpp Require Import base option list strings gmap sorting.

Local Open Scope Z_scope.
Local Set Warnings "-register-all".

(** ** Errors of awaited calls *)

Inductive result (A : Type) : Type :=
| Ok (a : A)
| Err (message : string).
Arguments Ok {A} a.
Arguments Err {A} message.

Definition rbind {A B} (r : result A) (k : A -> result B) : result B :=
  match r with
  | Ok a => k a
  | Err m => Err m
  end.

Notation "x <-? r ; k" := (rbind r (fun x => k))
  (at level 100, r at next level, k at level 200, right associativity).

Fixpoint rmapM {A B} (f : A -> result B) (l : list A) : result (list B) :=
  match l with
  | [] => Ok []
  | a :: l' => b <-? f a; bs <-? rmapM f l'; Ok (b :: bs)
  end.

(** ** The request's query string, as Express hands it to a handler *)

Module Js.

(** A value of [req.query]: a key that is absent reads as [undefined], a
    key given once is a string, a key given several times is an array of
    strings. *)
Inductive QueryValue : Type :=
| QUndefined
| QString (s : string)
| QArray (l : list string).

Abbreviation Query := (gmap string QueryValue).

(** [req.query.key] *)
Definition query_get (q : Query) (key : string) : QueryValue :=
  default QUndefined (q !! key).

(** ToString, applied by [parseInt] to its argument. *)
Definition toString (v : QueryValue) : string :=
  match v with
  | QUndefined => "undefined"
  | QString s => s
  | QArray l => String.concat "," l
  end.

(** White space skipped by [parseInt]: TAB, LF, VT, FF, CR, SP, NBSP. *)
Definition is_white_space (c : ascii) : bool :=
  let n := Z.of_N (N_of_ascii c) in
  ((9 <=? n) && (n <=? 13)) || (n =? 32) || (n =? 160).

Fixpoint trim_start (s : string) : string :=
  match s with
  | String c r => if is_white_space c then trim_start r else s
  | EmptyString => s
  end.

(** The value of a code unit as a digit of the given radix. *)
Definition digit_val (radix : Z) (c : ascii) : option Z :=
  let n := Z.of_N (N_of_ascii c) in
  let d :=
    if (48 <=? n) && (n <=? 57) then Some (n - 48)
    else if (97 <=? n) && (n <=? 122) then Some (n - 87)
    else if (65 <=? n) && (n <=? 90) then Some (n - 55)
    else None in
  match d with
  | Some d => if d <? radix then Some d else None
  | None => None
  end.

(** The longest prefix of digits, read in the radix; [acc] is [None] as
    long as no digit has been read. *)
Fixpoint digits (radix : Z) (s : string) (acc : option Z) : option Z :=
  match s with
  | String c r =>
      match digit_val radix c with
      | Some d => digits radix r (Some (radix * default 0 acc + d))
      | None => acc
      end
  | EmptyString => acc
  end.

(** [Number.parseInt(s)] with no radix; [None] is NaN. *)
Definition parseInt (s : string) : option Z :=
  let s1 := trim_start s in
  let '(sign, s2) :=
    match s1 with
    | String "-" r => (-1, r)
    | String "+" r => (1, r)
    | _ => (1, s1)
    end in
  let '(radix, s3) :=
    match s2 with
    | String "0" (String "x" r) => (16, r)
    | String "0" (String "X" r) => (16, r)
    | _ => (10, s2)
    end in
  match digits radix s3 None with
  | Some n => Some (sign * n)
  | None => None
  end.

(** [n || d] on a number: NaN and zero are falsy. *)
Definition or_default (n : option Z) (d : Z) : Z :=
  match n with
  | Some z => if z =? 0 then d else z
  | None => d
  end.

End Js.

(** ** The collection capability used by the paginator *)

Module Store.

(** [countDocuments(filter)] and [find(filter, {projection}).skip(n)
    .limit(m).toArray()]; both are awaited and may be rejected. *)
Record Collection (Doc Filter Projection : Type) : Type := {
  emptyFilter : Filter;
  countDocuments : Filter -> result nat;
  find : Filter -> option Projection -> Z -> Z -> result (list Doc)
}.
Arguments emptyFilter {Doc Filter Projection} _.
Arguments countDocuments {Doc Filter Projection} _ _.
Arguments find {Doc Filter Projection} _ _ _ _ _.

(** A collection held as a list of documents in natural order, with
    the MongoDB driver's reading of the two numbers: a negative skip is
    rejected, a negative limit is read by its magnitude and a zero limit
    as no limit. *)
Definition listCollection {Doc : Type} (docs : list Doc)
  : Collection Doc (Doc -> bool) (Doc -> Doc) := {|
  emptyFilter := fun _ => true;
  countDocuments := fun f => Ok (length (List.filter f docs));
  find := fun f projection skip limit =>
    if skip <? 0 then Err "skip value must be non-negative"
    else
      let rest := drop (Z.to_nat skip) (List.filter f docs) in
      let page :=
        if limit =? 0 then rest else take (Z.to_nat (Z.abs limit)) rest in
      Ok (map (default id projection) page)
|}.

(** The documents a filter selects from a list collection, in the
    collection's order; no filter selects them all. *)
Definition selected {Doc : Type} (docs : list Doc)
    (filter : option (Doc -> bool)) : list Doc :=
  List.filter (default (fun _ => true) filter) docs.

End Store.

(** ** utils/pagination__collection.js *)

Module Pagination.
Import Js Store.

Record Page (Doc : Type) : Type := {
  items : list Doc;
  nextId : option Z;
  previousId : option Z;
  total : Z
}.
Arguments items {Doc} _.
Arguments nextId {Doc} _.
Arguments previousId {Doc} _.
Arguments total {Doc} _.

(** [Number.parseInt(req.query.limit) || 6] *)
Definition pageSize (query : Query) : Z :=
  or_default (parseInt (toString (query_get query "limit"))) 6.

(** [Number.parseInt(req.query.cursor) || 0] *)
Definition cursor (query : Query) : Z :=
  or_default (parseInt (toString (query_get query "cursor"))) 0.

(** [cursor >= total ? Math.max(total - pageSize, 0) : cursor] *)
Definition adjustedCursor (cursor total pageSize : Z) : Z :=
  if cursor >=? total then Z.max (total - pageSize) 0 else cursor.

Section paginate.
Context {Doc Filter Projection : Type}.

Definition paginateCollection
    (collection : Collection Doc Filter Projection) (query : Query)
    (filter : option Filter) (projection : option Projection)
  : result (Page Doc) :=
  let filter := default (emptyFilter collection) filter in
  let pageSize := pageSize query in
  let cursor := cursor query in
  total <-? countDocuments collection filter;
  let total := Z.of_nat total in
  let adjustedCursor := adjustedCursor cursor total pageSize in
  items <-? find collection filter projection adjustedCursor pageSize;
  let nextId :=
    if adjustedCursor + pageSize <? total
    then Some (adjustedCursor + pageSize) else None in
  let previousId :=
    if adjustedCursor - pageSize >=? 0
    then Some (adjustedCursor - pageSize) else None in
  Ok {| items := items; nextId := nextId; previousId := previousId;
        total := total |}.

(** The offset [paginateCollection] hands to [skip], once the count is
    known. *)
Definition effectiveCursor
    (collection : Collection Doc Filter Projection) (query : Query)
    (filter : option Filter) : result Z :=
  let filter := default (emptyFilter collection) filter in
  total <-? countDocuments collection filter;
  Ok (adjustedCursor (cursor query) (Z.of_nat total) (pageSize query)).
End paginate.

End Pagination.

(** ** Documents and the aggregation stages the handlers use *)

Module Bson.

Inductive value : Type :=
| VNull
| VBool (b : bool)
| VNum (q : Q)
| VStr (s : string)
| VDate (ms : Z)
| VOid (hex : string)
| VArr (elems : list value)
| VDoc (fields : list (string * value)).

Definition doc := list (string * value).

Fixpoint get_field (k : string) (d : doc) : option value :=
  match d with
  | [] => None
  | (k', v) :: r => if decide (k' = k) then Some v else get_field k r
  end.

(** Assignment of a field: an existing field keeps its place, a new one
    goes last. *)
Fixpoint set_field (k : string) (v : value) (d : doc) : doc :=
  match d with
  | [] => [(k, v)]
  | (k', v') :: r =>
      if decide (k' = k) then (k, v) :: r else (k', v') :: set_field k v r
  end.

Definition remove_field (k : string) (d : doc) : doc :=
  List.filter (fun kv => negb (bool_decide (kv.1 = k))) d.

(** Equality of two values as the store's equality match sees it. *)
Fixpoint value_eqb (a b : value) : bool :=
  match a, b with
  | VNull, VNull => true
  | VBool x, VBool y => Bool.eqb x y
  | VNum x, VNum y => Qeq_bool x y
  | VStr x, VStr y => bool_decide (x = y)
  | VDate x, VDate y => x =? y
  | VOid x, VOid y => bool_decide (x = y)
  | VArr l1, VArr l2 =>
      (fix go (l1 l2 : list value) : bool :=
         match l1, l2 with
         | [], [] => true
         | x :: r1, y :: r2 => value_eqb x y && go r1 r2
         | _, _ => false
         end) l1 l2
  | VDoc f1, VDoc f2 =>
      (fix go (f1 f2 : list (string * value)) : bool :=
         match f1, f2 with
         | [], [] => true
         | (k1, x) :: r1, (k2, y) :: r2 =>
             bool_decide (k1 = k2) && value_eqb x y && go r1 r2
         | _, _ => false
         end) f1 f2
  | _, _ => false
  end.

(** *** Query operators of [$match] *)

(** A field that is missing compares as null. *)
Definition field_or_null (v : option value) : value := default VNull v.

(** A query operator is tried on the field's value and, when that is an
    array, on each of its elements. *)
Definition match_targets (v : value) : list value :=
  match v with
  | VArr l => v :: l
  | _ => [v]
  end.

(** [{ field: expected }] *)
Definition query_eq (expected : value) (field : option value) : bool :=
  existsb (value_eqb expected) (match_targets (field_or_null field)).

(** [{ field: { $in: arr } }] *)
Definition query_in (arr : list value) (field : option value) : bool :=
  existsb (fun t => existsb (value_eqb t) arr)
    (match_targets (field_or_null field)).

(** [{ field: { $regex: .., $options: .. } }], for a compiled pattern. *)
Definition query_regex (m : string -> bool) (field : option value) : bool :=
  existsb (fun t => match t with VStr s => m s | _ => false end)
    (match_targets (field_or_null field)).

(** [{ field: { $exists: b } }] *)
Definition query_exists (b : bool) (field : option value) : bool :=
  Bool.eqb b (bool_decide (is_Some field)).

(** The store's regular-expression engine: a pattern and its options
    compile to a search predicate, or are rejected. *)
Class RegexEngine : Type := {
  regex_compile : string -> string -> option (string -> bool)
}.

(** *** Aggregation expressions *)

(** A number of milliseconds added to or taken from a date is truncated
    to an integer. *)
Definition truncate (q : Q) : Z := Z.quot (Qnum q) (Z.pos (Qden q)).

(** [$regexMatch: { input, regex, options }], for a compiled pattern. *)
Definition regexMatch (m : string -> bool) (input : option value)
  : result bool :=
  match input with
  | None | Some VNull => Ok false
  | Some (VStr s) => Ok (m s)
  | Some _ => Err "$regexMatch needs 'input' to be of type string"
  end.

(** [$subtract: [a, b]] *)
Definition subtract (a b : value) : result value :=
  match a, b with
  | VNum x, VNum y => Ok (VNum (x - y))
  | VNull, _ | _, VNull => Ok VNull
  | VDate x, VDate y => Ok (VNum (inject_Z (x - y)))
  | VDate x, VNum y => Ok (VDate (x - truncate y))
  | _, _ => Err "$subtract only supports numeric or date types"
  end.

(** [$divide: [a, b]]; the quotient is kept exact. *)
Definition divide (a b : value) : result value :=
  match a, b with
  | VNum x, VNum y =>
      if Qeq_bool y 0 then Err "can't $divide by zero" else Ok (VNum (x / y))
  | VNull, _ | _, VNull => Ok VNull
  | _, _ => Err "$divide only supports numeric types"
  end.

(** [$add: [a, b]]; the operands are read from left to right. *)
Definition add (a b : value) : result value :=
  match a with
  | VNull => Ok VNull
  | VNum x =>
      match b with
      | VNum y => Ok (VNum (x + y))
      | VNull => Ok VNull
      | VDate d => Ok (VDate (d + truncate x))
      | _ => Err "$add only supports numeric or date types"
      end
  | VDate d =>
      match b with
      | VNum y => Ok (VDate (d + truncate y))
      | VNull => Ok VNull
      | VDate _ => Err "only one date allowed in an $add expression"
      | _ => Err "$add only supports numeric or date types"
      end
  | _ => Err "$add only supports numeric or date types"
  end.

(** *** Stages *)

(** [$match] *)
Definition match_stage (query : doc -> bool) (docs : list doc) : list doc :=
  List.filter query docs.

(** [$lookup: { from, localField, foreignField, as }] on one document:
    the local value (each element, for an array) is matched by equality
    against the foreign field. *)
Definition lookup (from : list doc) (localField foreignField as_ : string)
    (d : doc) : doc :=
  let locals :=
    match field_or_null (get_field localField d) with
    | VArr l => l
    | v => [v]
    end in
  let joined :=
    List.filter
      (fun u => existsb (fun v => query_eq v (get_field foreignField u)) locals)
      from in
  set_field as_ (VArr (map VDoc joined)) d.

(** [$unwind: { path, preserveNullAndEmptyArrays: true }] on one
    document. *)
Definition unwind_preserve (path : string) (d : doc) : list doc :=
  match get_field path d with
  | Some (VArr []) => [remove_field path d]
  | Some (VArr l) => map (fun e => set_field path e d) l
  | _ => [d]
  end.

(** Exclusion of key [k] inside an embedded document, or inside each
    embedded document of an array. *)
Definition exclude_in (k : string) (v : value) : value :=
  match v with
  | VDoc f => VDoc (remove_field k f)
  | VArr l =>
      VArr (map (fun e =>
                   match e with
                   | VDoc f => VDoc (remove_field k f)
                   | _ => e
                   end) l)
  | _ => v
  end.

(** [$project: { "k1.k2": 0 }] on one document. *)
Definition exclude_nested (k1 k2 : string) (d : doc) : doc :=
  map (fun kv => if decide (kv.1 = k1) then (kv.1, exclude_in k2 kv.2) else kv) d.

(** Value [v] holds no key [k]: neither as an embedded document nor in
    any embedded document of an array. *)
Definition lacks_key (k : string) (v : value) : Prop :=
  match v with
  | VDoc f => get_field k f = None
  | VArr l =>
      Forall (fun e => match e with
                       | VDoc f => get_field k f = None
                       | _ => True
                       end) l
  | _ => True
  end.

(** [$limit: n]: the store accepts a positive integer only. *)
Definition limit_stage (n : option Z) (docs : list doc) : result (list doc) :=
  match n with
  | Some n =>
      if 0 <? n then Ok (take (Z.to_nat n) docs)
      else Err "the limit must be positive"
  | None => Err "the limit must be specified as a number"
  end.

(** *** Sort order *)

(** Rank of a value's type in the store's comparison order. *)
Definition type_rank (v : value) : nat :=
  match v with
  | VNull => 1
  | VNum _ => 2
  | VStr _ => 3
  | VDoc _ => 4
  | VArr _ => 5
  | VOid _ => 6
  | VBool _ => 7
  | VDate _ => 8
  end%nat.

Definition bool_compare (x y : bool) : comparison :=
  match x, y with
  | false, true => Lt
  | true, false => Gt
  | _, _ => Eq
  end.

(** Comparison of two values: by type first, then within the type.
    Embedded documents are not ordered among themselves, nor are arrays
    that stand inside another value; numbers are compared by value. *)
Definition bson_compare (a b : value) : comparison :=
  match Nat.compare (type_rank a) (type_rank b) with
  | Eq =>
      match a, b with
      | VBool x, VBool y => bool_compare x y
      | VNum x, VNum y => Qcompare x y
      | VStr x, VStr y => String.compare x y
      | VDate x, VDate y => Z.compare x y
      | VOid x, VOid y => String.compare x y
      | _, _ => Eq
      end
  | c => c
  end.

(** The smaller of two values for an ascending key, the larger for a
    descending one. *)
Definition extreme (ascending : bool) (x y : value) : value :=
  match bson_compare x y with
  | Lt => if ascending then x else y
  | Gt => if ascending then y else x
  | Eq => x
  end.

(** The key [$sort] reads from a field: a field that holds an array is
    keyed by its smallest element when the direction is ascending and by
    its largest when it is descending; an empty array has no key. *)
Definition sort_key (ascending : bool) (v : value) : option value :=
  match v with
  | VArr [] => None
  | VArr (x :: l) => Some (fold_left (extreme ascending) l x)
  | _ => Some v
  end.

(** Comparison of two sort keys; the missing key of an empty array stands
    below every other, null included. *)
Definition key_compare (a b : option value) : comparison :=
  match a, b with
  | None, None => Eq
  | None, Some _ => Lt
  | Some _, None => Gt
  | Some x, Some y => bson_compare x y
  end.

(** A sort specification: the keys in order, each with its direction
    ([true] for ascending, 1; [false] for descending, -1). *)
Definition sort_spec := list (string * bool).

Fixpoint sort_compare (spec : sort_spec) (a b : doc) : comparison :=
  match spec with
  | [] => Eq
  | (k, ascending) :: spec' =>
      let c := key_compare
                 (sort_key ascending (field_or_null (get_field k a)))
                 (sort_key ascending (field_or_null (get_field k b))) in
      match (if ascending then c else CompOpp c) with
      | Eq => sort_compare spec' a b
      | c' => c'
      end
  end.

(** [a] may stand before [b] in the sorted output. *)
Definition sort_before (spec : sort_spec) (a b : doc) : Prop :=
  sort_compare spec a b <> Gt.

Global Instance sort_before_dec spec a b : Decision (sort_before spec a b).
Proof.
  unfold sort_before. destruct (sort_compare spec a b).
  - left; discriminate.
  - left; discriminate.
  - right; intros H; apply H; reflexivity.
Defined.

(** [$sort: spec]. The store leaves the order of documents with equal
    keys open; the merge sort used here is one such order. *)
Definition sort_stage (spec : sort_spec) (docs : list doc) : list doc :=
  merge_sort (sort_before spec) docs.

End Bson.

(** ** petRecommendations.js *)

Module Recommendations.
Import Js Bson.

(** The database behind the [petCollection] handle: its collections by
    name; a name that was never written to reads as empty. *)
Abbreviation Database := (gmap string (list doc)).

Definition collection_docs (db : Database) (name : string) : list doc :=
  default [] (db !! name).

Inductive response : Type :=
| Json200 (body : list doc)
| Json500 (error message : string).

(** A query value as the driver serialises it into a pipeline. *)
Definition to_bson (v : QueryValue) : value :=
  match v with
  | QUndefined => VNull
  | QString s => VStr s
  | QArray l => VArr (map VStr l)
  end.

(** [Array.isArray(categories) ? categories : [categories]] *)
Definition categoryArray (categories : QueryValue) : list QueryValue :=
  match categories with
  | QArray l => map QString l
  | v => [v]
  end.

(** [parseInt(limit)], with [limit = 12] when the query has none. *)
Definition parsedLimit (query : Query) : option Z :=
  match query_get query "limit" with
  | QUndefined => parseInt "12"
  | v => parseInt (toString v)
  end.

(** [{ $regex: district, $options: "i" }]: the store wants a string that
    compiles. *)
Definition district_regex `{RegexEngine} (district : QueryValue)
  : result (string -> bool) :=
  match district with
  | QString pattern =>
      match regex_compile pattern "i" with
      | Some m => Ok m
      | None => Err "Regular expression is invalid"
      end
  | _ => Err "$regex has to be a string"
  end.

(** The [$lookup] and [$unwind] stages, shared by both handlers. *)
Definition lookup_added_by (db : Database) (docs : list doc) : list doc :=
  map (lookup (collection_docs db "users") "added_by" "_id" "added_by") docs.

Definition unwind_added_by (docs : list doc) : list doc :=
  flat_map (unwind_preserve "added_by") docs.

(** *** GET /api/pet-recommendations *)

Definition basic_query (categoryArray : list QueryValue) (m : string -> bool)
    (d : doc) : bool :=
  query_in (map to_bson categoryArray) (get_field "category" d)
  && query_regex m (get_field "location" d)
  && query_eq (VBool false) (get_field "adopted" d).

Definition basic_project (d : doc) : doc :=
  exclude_nested "added_by" "email" (exclude_nested "added_by" "password" d).

Definition basic_pipeline `{RegexEngine} (db : Database) (petCollection : string)
    (categoryArray : list QueryValue) (district : QueryValue)
    (limit : option Z) : result (list doc) :=
  m <-? district_regex district;
  let matched :=
    match_stage (basic_query categoryArray m) (collection_docs db petCollection) in
  let joined := unwind_added_by (lookup_added_by db matched) in
  let projected := map basic_project joined in
  let sorted := sort_stage [("created_at", false)] projected in
  limit_stage limit sorted.

Definition getPetRecommendations `{RegexEngine} (db : Database)
    (petCollection : string) (query : Query) : response :=
  let categories := query_get query "categories" in
  let district := query_get query "district" in
  let limit := parsedLimit query in
  let categoryArray := categoryArray categories in
  match basic_pipeline db petCollection categoryArray district limit with
  | Ok recommendations => Json200 recommendations
  | Err message => Json500 "Failed to fetch recommendations" message
  end.

(** *** GET /api/pet-recommendations/advanced *)

Definition advanced_query (categoryArray : list QueryValue)
    (m : string -> bool) (d : doc) : bool :=
  query_in (map to_bson categoryArray) (get_field "category" d)
  && query_eq (VBool false) (get_field "adopted" d)
  && (query_regex m (get_field "location" d)
      || query_exists false (get_field "location" d)).

(** The first [$addFields] stage on one document; [now] is the value of
    [new Date()] when the pipeline is built. *)
Definition add_scores (m : string -> bool) (now : Z) (d : doc) : result doc :=
  matches <-? regexMatch m (get_field "location" d);
  let locationScore := VNum (if matches then 10 else 5) in
  age <-? subtract (VDate now) (field_or_null (get_field "created_at" d));
  days <-? divide age (VNum 86400000);
  freshnessScore <-? subtract (VNum 10) days;
  Ok (set_field "freshnessScore" freshnessScore
        (set_field "locationScore" locationScore d)).

(** The second [$addFields] stage on one document. *)
Definition add_total (d : doc) : result doc :=
  totalScore <-? add (field_or_null (get_field "locationScore" d))
                     (field_or_null (get_field "freshnessScore" d));
  Ok (set_field "totalScore" totalScore d).

Definition advanced_project (d : doc) : doc :=
  exclude_nested "added_by" "email"
    (exclude_nested "added_by" "password"
       (remove_field "totalScore"
          (remove_field "freshnessScore" (remove_field "locationScore" d)))).

(** The pipeline up to [$unwind]: the candidate set. *)
Definition advanced_candidates (db : Database) (petCollection : string)
    (categoryArray : list QueryValue) (m : string -> bool) : list doc :=
  let matched :=
    match_stage (advanced_query categoryArray m)
      (collection_docs db petCollection) in
  unwind_added_by (lookup_added_by db matched).

(** The pipeline up to the second [$addFields]: the scored candidates. *)
Definition advanced_scored (db : Database) (petCollection : string)
    (categoryArray : list QueryValue) (m : string -> bool) (now : Z)
  : result (list doc) :=
  scored <-? rmapM (add_scores m now)
               (advanced_candidates db petCollection categoryArray m);
  rmapM add_total scored.

Definition advanced_sort : sort_spec :=
  [("totalScore", false); ("created_at", false)].

Definition advanced_pipeline `{RegexEngine} (db : Database)
    (petCollection : string) (categoryArray : list QueryValue)
    (district : QueryValue) (limit : option Z) (now : Z)
  : result (list doc) :=
  m <-? district_regex district;
  scored <-? advanced_scored db petCollection categoryArray m now;
  let sorted := sort_stage advanced_sort scored in
  limited <-? limit_stage limit sorted;
  Ok (map advanced_project limited).

Definition getAdvancedPetRecommendations `{RegexEngine} (db : Database)
    (petCollection : string) (now : Z) (query : Query) : response :=
  let categories := query_get query "categories" in
  let district := query_get query "district" in
  let limit := parsedLimit query in
  let categoryArray := categoryArray categories in
  match advanced_pipeline db petCollection categoryArray district limit now with
  | Ok recommendations => Json200 recommendations
  | Err message => Json500 "Failed to fetch recommendations" message
  end.

(** *** The data model of the documents the ranker inspects *)





End Recommendations.

(** ** A regular-expression engine for patterns without metacharacters *)

Module LiteralRegex.
Import Bson.

Definition lower (c : ascii) : ascii :=
  let n := N_of_ascii c in
  if ((65 <=? n) && (n <=? 90))%N then ascii_of_N (n + 32) else c.

Fixpoint lower_string (s : string) : string :=
  match s with
  | String c r => String (lower c) (lower_string r)
  | EmptyString => EmptyString
  end.

Fixpoint starts_with (p s : string) : bool :=
  match p, s with
  | EmptyString, _ => true
  | String a p', String b s' => bool_decide (a = b) && starts_with p' s'
  | String _ _, EmptyString => false
  end.

Fixpoint contains (p s : string) : bool :=
  starts_with p s ||
  match s with
  | String _ r => contains p r
  | EmptyString => false
  end.

(** Every pattern is read literally and searched for; option [i] folds
    the case of ASCII letters. *)
Definition literal_engine : RegexEngine := {|
  regex_compile := fun pattern options =>
    if bool_decide (options = "i")
    then Some (fun s => contains (lower_string pattern) (lower_string s))
    else Some (contains pattern)
|}.

End LiteralRegex.

(** ** Sample data for the scenarios *)

Module Samples.
Import Js Bson Recommendations.

(** Ten documents, named by their position. *)
Definition ten : list nat := seq 0 10.

Definition paging (limit cursor : string) : Query :=
  <["limit" := QString limit]> (<["cursor" := QString cursor]> ∅).

Definition day : Z := 86400000.

Definition pet (id category : string) (location : option string)
    (created_at : Z) : doc :=
  [("_id", VOid id); ("category", VStr category)]
  ++ match location with Some l => [("location", VStr l)] | None => [] end
  ++ [("adopted", VBool false); ("created_at", VDate created_at);
      ("added_by", VOid "u1")].

Definition users : list doc :=
  [[("_id", VOid "u1"); ("name", VStr "Ann"); ("email", VStr "ann@example.org");
    ("password", VStr "secret")]].

Definition pets : list doc :=
  [pet "p1" "cat" (Some "Dhaka") (100 * day);
   pet "p2" "cat" None (99 * day);
   pet "p3" "dog" (Some "dhaka north") (100 * day);
   pet "p4" "cat" (Some "DHAKA") (85 * day);
   pet "p5" "cat" (Some "Khulna") (100 * day)].

Definition db : Database := <["allPets" := pets]> (<["users" := users]> ∅).

Definition wanted (categories : QueryValue) : Query :=
  <["categories" := categories]> (<["district" := QString "dhaka"]> ∅).

(** The search predicate the literal engine compiles "dhaka" to. *)
Definition dhaka (s : string) : bool :=
  LiteralRegex.contains (LiteralRegex.lower_string "dhaka")
    (LiteralRegex.lower_string s).

(** The same two listings in either insertion order: one listed now, one
    fifteen days ago. *)
Definition fresh_then_old : Database :=
  <["allPets" := [pet "new" "cat" (Some "Dhaka") (100 * day);
                  pet "old" "cat" (Some "Dhaka") (85 * day)]]> ∅.

Definition old_then_fresh : Database :=
  <["allPets" := [pet "old" "cat" (Some "Dhaka") (85 * day);
                  pet "new" "cat" (Some "Dhaka") (100 * day)]]> ∅.

(** A listing without location ahead of one of the same age whose
    location matches. *)
Definition nowhere_then_dhaka : Database :=
  <["allPets" := [pet "nowhere" "cat" None (100 * day);
                  pet "dhaka" "cat" (Some "Dhaka") (100 * day)]]> ∅.

(** A listing whose [created_at] is kept as an ISO string. *)
Definition iso_listing : Database :=
  <["allPets" := [[("_id", VOid "p9"); ("category", VStr "cat");
                   ("location", VStr "Dhaka"); ("adopted", VBool false);
                   ("created_at", VStr "2025-01-01T00:00:00.000Z")]]]> ∅.

(** The [_id]s of an answer's entries, in order. *)
Definition ids (r : response) : list (option value) :=
  match r with
  | Json200 body => map (get_field "_id") body
  | Json500 _ _ => []
  end.

End Samples.

(** ** index.js: the routes around the paginator and the ranker *)

Module Routes.
Import Js Store Pagination Bson Recommendations.

(** [Date.prototype.toISOString], taken as given: the text of a time. *)
Class DateFormat : Type := {
  toISOString : Z -> string
}.

(** [!!v] on a value of [req.query]: an absent key and the empty string
    are falsy, an array is truthy. *)
Definition truthy (v : QueryValue) : bool :=
  match v with
  | QUndefined => false
  | QString s => negb (bool_decide (s = ""))
  | QArray _ => true
  end.

(** A pattern written in the handler, as the store compiles it. *)
Definition compile `{RegexEngine} (pattern options : string)
  : result (string -> bool) :=
  match regex_compile pattern options with
  | Some m => Ok m
  | None => Err "Regular expression is invalid"
  end.

(** The answer of a listing route. *)
Inductive answer : Type :=
| Sent200 (page : Page doc)
| Sent400 (message : string)
| Sent500 (message error : string).

(** The filter of /category-pets for a compiled pattern:
    [{ category: { $regex, $options }, adopted: false }]. *)
Definition category_filter (m : string -> bool) (d : doc) : bool :=
  query_regex m (get_field "category" d)
  && query_eq (VBool false) (get_field "adopted" d).

(** GET /category-pets *)
Definition categoryPets `{RegexEngine} (db : Database) (query : Query) : answer :=
  let category := query_get query "category" in
  if negb (truthy category) then Sent400 "Category is required"
  else
    match
      (m <-? compile ("^" ++ toString category ++ "$") "i";
       paginateCollection (listCollection (collection_docs db "allPets")) query
         (Some (category_filter m)) None)
    with
    | Ok result => Sent200 result
    | Err error => Sent500 "Failed to fetch pets" error
    end.

(** GET /donation-campaigns: no filter, no projection, and no handler for
    a rejected call, so [Err] is the rejection itself. *)
Definition donationCampaigns (db : Database) (query : Query) : result (Page doc) :=
  paginateCollection (listCollection (collection_docs db "donationsCollection"))
    query None None.

(** [collection.insertOne(doc)]: a document whose [_id] is absent or null
    gets the identifier the driver generates; an [_id] already in the
    collection is rejected. The answer is the collection and the
    [insertedId]. *)
Definition insertOne (generated : value) (docs : list doc) (d : doc)
  : result (list doc * value) :=
  let d' :=
    match get_field "_id" d with
    | None | Some VNull => set_field "_id" generated d
    | Some _ => d
    end in
  let id := field_or_null (get_field "_id" d') in
  if existsb (fun e => value_eqb (field_or_null (get_field "_id" e)) id) docs
  then Err "E11000 duplicate key error"
  else Ok (docs ++ [d'], id).

(** POST /add-pet, for a body that is a JSON object: the body is stamped
    with the time as text and stored. The handler has no [catch]. *)
Definition addPet `{DateFormat} (generated : value) (now : Z) (db : Database)
    (body : doc) : result (Database * value) :=
  let pet := set_field "created_at" (VStr (toISOString now)) body in
  inserted <-? insertOne generated (collection_docs db "allPets") pet;
  Ok (<["allPets" := inserted.1]> db, inserted.2).

End Routes.

(** ** index.js, GET /all-pets: the two sides of the category match *)

Module Normalize.
Import Js.

(** [toLowerCase] on a code unit below 256: the ASCII capitals and the
    Latin-1 capitals (all of U+00C0 to U+00DE but the multiplication
    sign). *)
Definition js_lower (c : ascii) : ascii :=
  let n := N_of_ascii c in
  if ((65 <=? n) && (n <=? 90))%N
     || ((192 <=? n) && (n <=? 222) && negb (n =? 215))%N
  then ascii_of_N (n + 32) else c.

Fixpoint toLowerCase (s : string) : string :=
  match s with
  | String c r => String (js_lower c) (toLowerCase r)
  | EmptyString => EmptyString
  end.

(** Removal of every code unit that satisfies [p]. *)
Fixpoint remove_all (p : ascii -> bool) (s : string) : string :=
  match s with
  | String c r => if p c then remove_all p r else String c (remove_all p r)
  | EmptyString => EmptyString
  end.

Fixpoint trim_end (s : string) : string :=
  match s with
  | String c r =>
      match trim_end r with
      | EmptyString => if is_white_space c then EmptyString else String c EmptyString
      | r' => String c r'
      end
  | EmptyString => EmptyString
  end.

(** [String.prototype.trim] *)
Definition trim (s : string) : string := trim_end (trim_start s).

(** The class [\s|_] of the handler's regular expression. *)
Definition space_or_underscore (c : ascii) : bool :=
  is_white_space c || bool_decide (c = "_"%char).

(** [str?.toString().toLowerCase().replace(/\s|_/g, "").trim()]; the
    chain stops at an undefined [str]. *)
Definition normalize (str : QueryValue) : option string :=
  match str with
  | QUndefined => None
  | _ => Some (trim (remove_all space_or_underscore (toLowerCase (toString str))))
  end.






(** The code units of a string. *)
Fixpoint chars (s : string) : list ascii :=
  match s with
  | String c r => c :: chars r
  | EmptyString => []
  end.


End Normalize.

(** ** Sample data for the routes *)

Module RouteSamples.
Import Js Bson Recommendations Routes Samples.

(** A clock text for the instances; any text serves, since nothing reads
    it back as a time. *)
Definition sample_format : DateFormat := {|
  toISOString := fun _ => "2025-01-01T00:00:00.000Z"
|}.

(** The body of a POST /add-pet. *)
Definition new_pet : doc :=
  [("pet_name", VStr "Momo"); ("category", VStr "cat");
   ("location", VStr "Dhaka"); ("adopted", VBool false)].

(** The body of a POST /add-pet that names no location. *)
Definition bare_pet : doc :=
  [("pet_name", VStr "Tuni"); ("category", VStr "cat"); ("adopted", VBool false)].

(** A query without [categories]. *)
Definition no_categories : Query := <["district" := QString "dhaka"]> ∅.

(** A listing without a category, next to the sample listings. *)
Definition with_stray : Database :=
  <["allPets" := [("_id", VOid "p0"); ("location", VStr "Dhaka");
                  ("adopted", VBool false); ("created_at", VDate (100 * day))]
                 :: pets]> db.

(** An engine for the patterns of /category-pets: a pattern between [^]
    and [$] is matched against the whole text, any other is searched
    for; option [i] folds the case of ASCII letters. *)
Definition anchored (pattern : string) : option string :=
  match pattern with
  | String "^" rest =>
      match String.substring (String.length rest - 1) 1 rest with
      | "$" => Some (String.substring 0 (String.length rest - 1) rest)
      | _ => None
      end
  | _ => None
  end%string.

Definition anchored_engine : RegexEngine := {|
  regex_compile := fun pattern options =>
    let fold := if bool_decide (options = "i")
                then LiteralRegex.lower_string else id in
    match anchored pattern with
    | Some text => Some (fun s => bool_decide (fold s = fold text))
    | None => Some (fun s => LiteralRegex.contains (fold pattern) (fold s))
    end
|}.

(** The entries the sample listings are returned as. *)
Definition entry (id : string) (location : option string) (created_at : Z)
  : doc :=
  [("_id", VOid id); ("category", VStr "cat")]
  ++ match location with Some l => [("location", VStr l)] | None => [] end
  ++ [("adopted", VBool false); ("created_at", VDate created_at);
      ("added_by", VDoc [("_id", VOid "u1"); ("name", VStr "Ann")])].

Definition basic_entries : list doc :=
  [entry "p1" (Some "Dhaka") (100 * day); entry "p4" (Some "DHAKA") (85 * day)].

Definition advanced_entries : list doc :=
  [entry "p1" (Some "Dhaka") (100 * day); entry "p2" None (99 * day);
   entry "p4" (Some "DHAKA") (85 * day)].

(** The listing [new_pet] is stored as, and the database after it. *)
Definition stored_pet : doc :=
  set_field "_id" (VOid "p9")
    (set_field "created_at" (VStr "2025-01-01T00:00:00.000Z") new_pet).

Definition after_add : Database :=
  <["allPets" := pets ++ [stored_pet]]> db.

(** The listing of [iso_listing]. *)
Definition iso_pet : doc :=
  [("_id", VOid "p9"); ("category", VStr "cat"); ("location", VStr "Dhaka");
   ("adopted", VBool false); ("created_at", VStr "2025-01-01T00:00:00.000Z")].



Definition dated_entry : doc :=
  [("_id", VOid "p1"); ("category", VStr "cat"); ("location", VStr "Dhaka");
   ("adopted", VBool false); ("created_at", VDate (90 * day))].


Definition in_category (category : string) : Query :=
  <["category" := QString category]> (paging "2" "0").

Definition campaigns : Database :=
  <["donationsCollection" :=
      [[("_id", VOid "c1"); ("paused", VBool false)];
       [("_id", VOid "c2"); ("paused", VBool true)];
       [("_id", VOid "c3"); ("paused", VBool false)]]]> ∅.

End RouteSamples.

(** ** What a client reads from an answer *)

Module Observations.
Import Pagination.

(** The items of an answered page; a rejected call shows none. *)
Definition items_of {Doc : Type} (r : result (Page Doc)) : list Doc :=
  match r with
  | Ok page => items page
  | Err _ => []
  end.

End Observations.

(** * Properties of the error monad *)

Lemma rbind_Ok {A B} (r : result A) (k : A -> result B) (b : B) :
  rbind r k = Ok b -> exists a, r = Ok a /\ k a = Ok b.
Proof. destruct r as [a|m]; simpl; [eauto | discriminate]. Qed.

(** * Properties of the paginator *)

Module PaginationProps.
Import Js Store Pagination Samples.

Lemma adjustedCursor_beyond (cursor total pageSize : Z) :
  total <= cursor ->
  adjustedCursor cursor total pageSize = Z.max (total - pageSize) 0.
Proof.
  intros Hge. unfold adjustedCursor.
  destruct (Z.geb_spec cursor total) as [_|Hlt]; [reflexivity | lia].
Qed.

Lemma adjustedCursor_within (cursor total pageSize : Z) :
  cursor < total -> adjustedCursor cursor total pageSize = cursor.
Proof.
  intros Hlt. unfold adjustedCursor.
  destruct (Z.geb_spec cursor total) as [Hge|_]; [lia | reflexivity].
Qed.

Lemma adjustedCursor_range (cursor total pageSize : Z) :
  0 <= total -> 0 <= cursor -> 0 <= pageSize ->
  0 <= adjustedCursor cursor total pageSize <= total.
Proof.
  intros Ht Hc Hp. destruct (Z_lt_le_dec cursor total) as [Hlt|Hge].
  - rewrite adjustedCursor_within by assumption. lia.
  - rewrite adjustedCursor_beyond by assumption. lia.
Qed.

(** Exactly when the clamped cursor lies between 0 and the total: a
    cursor below the total must not be negative, and a cursor at or beyond
    it needs a limit that is not negative. *)
Lemma adjustedCursor_range_iff (cursor total pageSize : Z) :
  0 <= total ->
  0 <= adjustedCursor cursor total pageSize <= total
  <-> (cursor < total -> 0 <= cursor) /\ (total <= cursor -> 0 <= pageSize).
Proof.
  intros Ht. destruct (Z_lt_le_dec cursor total) as [Hlt|Hge].
  - rewrite adjustedCursor_within by assumption. lia.
  - rewrite adjustedCursor_beyond by assumption. lia.
Qed.

(** The page size is never zero. *)
Lemma pageSize_nonzero (query : Query) : pageSize query <> 0.
Proof.
  unfold pageSize, or_default.
  destruct (parseInt _) as [z|]; [|discriminate].
  destruct (Z.eqb_spec z 0); [discriminate | assumption].
Qed.

Section abstract_store.
Context {Doc Filter Projection : Type}.
Implicit Types (collection : Collection Doc Filter Projection).

(** [paginateCollection] skips by [effectiveCursor]. *)
Lemma paginateCollection_skip collection query filter projection :
  paginateCollection collection query filter projection =
  (eff <-? effectiveCursor collection query filter;
   total <-? countDocuments collection (default (emptyFilter collection) filter);
   items <-? find collection (default (emptyFilter collection) filter)
               projection eff (pageSize query);
   Ok {| items := items;
         nextId := if eff + pageSize query <? Z.of_nat total
                   then Some (eff + pageSize query) else None;
         previousId := if eff - pageSize query >=? 0
                       then Some (eff - pageSize query) else None;
         total := Z.of_nat total |}).
Proof.
  unfold paginateCollection, effectiveCursor.
  destruct (countDocuments collection _) as [n|m]; reflexivity.
Qed.

(** C1, amended: once the filtered documents are counted, a request whose
    parsed cursor is not negative and whose parsed limit is positive gets
    an effective cursor between 0 and the count. *)
Theorem effectiveCursor_in_range collection query filter (total : nat) :
  countDocuments collection (default (emptyFilter collection) filter) = Ok total ->
  0 <= cursor query ->
  1 <= pageSize query ->
  exists eff, effectiveCursor collection query filter = Ok eff
              /\ 0 <= eff <= Z.of_nat total.
Proof.
  intros Hcount Hc Hp. unfold effectiveCursor. rewrite Hcount. simpl.
  eexists; split; [reflexivity|].
  apply adjustedCursor_range; lia.
Qed.

(** C2: when the requested cursor is at or beyond the count,
    [paginateCollection] replaces it by [max (total - limit) 0]: that is
    the offset it hands to the store and from which it computes both
    neighbours; a cursor below the count is handed over as it is.  In both
    cases the page holds what the store answered at that offset. *)
Theorem paginateCollection_clamp collection query filter projection (total : nat) :
  let f := default (emptyFilter collection) filter in
  let page_from (skip : Z) : result (Page Doc) :=
    items <-? find collection f projection skip (pageSize query);
    Ok {| items := items;
          nextId := if skip + pageSize query <? Z.of_nat total
                    then Some (skip + pageSize query) else None;
          previousId := if skip - pageSize query >=? 0
                        then Some (skip - pageSize query) else None;
          total := Z.of_nat total |} in
  countDocuments collection f = Ok total ->
  (Z.of_nat total <= cursor query ->
   effectiveCursor collection query filter
   = Ok (Z.max (Z.of_nat total - pageSize query) 0)
   /\ paginateCollection collection query filter projection
      = page_from (Z.max (Z.of_nat total - pageSize query) 0))
  /\ (cursor query < Z.of_nat total ->
      effectiveCursor collection query filter = Ok (cursor query)
      /\ paginateCollection collection query filter projection
         = page_from (cursor query)).
Proof.
  intros f page_from Hcount. subst f page_from.
  unfold paginateCollection, effectiveCursor. rewrite Hcount. simpl.
  split; intros H.
  - rewrite adjustedCursor_beyond by assumption. split; reflexivity.
  - rewrite adjustedCursor_within by assumption. split; reflexivity.
Qed.

(** C4: in a returned page, [nextId] is present exactly when
    [effectiveCursor + limit < total] and is then that sum; [previousId]
    is present exactly when [effectiveCursor - limit >= 0] and is then
    that difference. *)
Theorem page_neighbours collection query filter projection (page : Page Doc) :
  paginateCollection collection query filter projection = Ok page ->
  let eff := adjustedCursor (cursor query) (total page) (pageSize query) in
  effectiveCursor collection query filter = Ok eff
  /\ (forall n, nextId page = Some n <->
                eff + pageSize query < total page /\ n = eff + pageSize query)
  /\ (forall n, previousId page = Some n <->
                0 <= eff - pageSize query /\ n = eff - pageSize query).
Proof.
  unfold paginateCollection, effectiveCursor. intros Hpage.
  apply rbind_Ok in Hpage as (n & Hcount & Hpage).
  apply rbind_Ok in Hpage as (its & Hfind & Hpage).
  injection Hpage as <-. rewrite Hcount. simpl. split; [reflexivity|].
  split; intros k.
  - destruct (Z.ltb_spec (adjustedCursor (cursor query) (Z.of_nat n) (pageSize query)
                          + pageSize query) (Z.of_nat n)).
    + split; [intros [= <-]; auto | intros [_ ->]; reflexivity].
    + split; [discriminate | lia].
  - destruct (Z.geb_spec (adjustedCursor (cursor query) (Z.of_nat n) (pageSize query)
                          - pageSize query) 0).
    + split; [intros [= <-]; split; [lia | reflexivity] | intros [_ ->]; reflexivity].
    + split; [discriminate | lia].
Qed.

(** C8: a limit that does not parse, or parses to zero, becomes 6 and a
    cursor that does not parse becomes 0; the call is rejected only when
    one of the two store calls is, and with that call's message. *)
Theorem paginateCollection_failures collection query filter projection :
  let f := default (emptyFilter collection) filter in
  (parseInt (toString (query_get query "limit")) = None
   \/ parseInt (toString (query_get query "limit")) = Some 0 ->
   pageSize query = 6)
  /\ (parseInt (toString (query_get query "cursor")) = None -> cursor query = 0)
  /\ match paginateCollection collection query filter projection with
     | Ok page =>
         exists n, countDocuments collection f = Ok n
           /\ find collection f projection
                (adjustedCursor (cursor query) (Z.of_nat n) (pageSize query))
                (pageSize query) = Ok (items page)
     | Err message =>
         countDocuments collection f = Err message
         \/ exists n, countDocuments collection f = Ok n
              /\ find collection f projection
                   (adjustedCursor (cursor query) (Z.of_nat n) (pageSize query))
                   (pageSize query) = Err message
     end.
Proof.
  simpl. split; [|split].
  - unfold pageSize. intros [-> | ->]; reflexivity.
  - unfold cursor. intros ->; reflexivity.
  - unfold paginateCollection.
    destruct (countDocuments collection _) as [n|m] eqn:Hcount; simpl; [|auto].
    destruct (find collection _ _ _ _) as [its|m] eqn:Hfind; simpl.
    + exists n. auto.
    + right. exists n. auto.
Qed.

End abstract_store.

(** *** Over a collection held as a list *)

Section list_store.
Context {Doc : Type}.
Implicit Types (docs : list Doc) (filter : option (Doc -> bool))
  (projection : option (Doc -> Doc)).

(** With a cursor that is not negative and a positive limit, the list
    store answers with the documents from the effective cursor on, at
    most [limit] of them. *)
Lemma paginate_list docs query filter projection :
  0 <= cursor query ->
  1 <= pageSize query ->
  let total := Z.of_nat (length (selected docs filter)) in
  let eff := adjustedCursor (cursor query) total (pageSize query) in
  0 <= eff <= total
  /\ paginateCollection (listCollection docs) query filter projection
     = Ok {| items := map (default id projection)
                        (take (Z.to_nat (pageSize query))
                           (drop (Z.to_nat eff) (selected docs filter)));
             nextId := if eff + pageSize query <? total
                       then Some (eff + pageSize query) else None;
             previousId := if eff - pageSize query >=? 0
                           then Some (eff - pageSize query) else None;
             total := total |}.
Proof.
  intros Hc Hp total eff.
  assert (Hrange : 0 <= eff <= total)
    by (apply adjustedCursor_range; unfold total; lia).
  split; [exact Hrange|].
  unfold paginateCollection, listCollection. simpl.
  fold (selected docs filter). fold total. fold eff.
  destruct (Z.ltb_spec eff 0); [lia|].
  destruct (Z.eqb_spec (pageSize query) 0); [lia|].
  rewrite Z.abs_eq by lia. reflexivity.
Qed.

(** C3, amended: for a request whose parsed cursor is not negative and
    whose parsed limit is positive, the page holds
    [min limit (total - effectiveCursor)] items when the effective cursor
    is below the total, and none otherwise. *)
Theorem page_length docs query filter projection :
  0 <= cursor query ->
  1 <= pageSize query ->
  exists page,
    paginateCollection (listCollection docs) query filter projection = Ok page
    /\ total page = Z.of_nat (length (selected docs filter))
    /\ let eff := adjustedCursor (cursor query) (total page) (pageSize query) in
       (eff < total page ->
        Z.of_nat (length (items page))
        = Z.min (pageSize query) (total page - eff))
       /\ (total page <= eff -> length (items page) = 0%nat).
Proof.
  intros Hc Hp.
  destruct (paginate_list docs query filter projection Hc Hp) as [Hrange Hpage].
  eexists. split; [exact Hpage|]. simpl. split; [reflexivity|].
  rewrite List.length_map, length_take, length_drop. split; intros H; lia.
Qed.

(** C9: when at least one document matches, a request whose parsed cursor
    is not negative and whose parsed limit is positive gets a page that is
    not empty; a cursor at or beyond the total gets the last [limit]
    documents (all of them when there are fewer). *)
Theorem page_nonempty docs query filter projection :
  (1 <= length (selected docs filter))%nat ->
  0 <= cursor query ->
  1 <= pageSize query ->
  exists page,
    paginateCollection (listCollection docs) query filter projection = Ok page
    /\ items page <> []
    /\ (total page <= cursor query ->
        items page
        = map (default id projection)
            (drop (length (selected docs filter) - Z.to_nat (pageSize query))
               (selected docs filter))).
Proof.
  intros Hn Hc Hp.
  destruct (paginate_list docs query filter projection Hc Hp) as [Hrange Hpage].
  eexists. split; [exact Hpage|]. simpl. split.
  - intros Hnil. apply (f_equal length) in Hnil. revert Hnil.
    rewrite List.length_map, length_take, length_drop. simpl.
    destruct (Z_lt_le_dec (cursor query) (Z.of_nat (length (selected docs filter))))
      as [Hlt|Hge].
    + rewrite adjustedCursor_within by assumption. lia.
    + rewrite adjustedCursor_beyond by assumption. lia.
  - intros Hge. rewrite adjustedCursor_beyond by assumption.
    replace (Z.to_nat (Z.max (Z.of_nat (length (selected docs filter))
                              - pageSize query) 0))
      with (length (selected docs filter) - Z.to_nat (pageSize query))%nat by lia.
    rewrite take_ge; [reflexivity|]. rewrite length_drop. lia.
Qed.

End list_store.

(** *** Scenarios *)

Example first_page :
  paginateCollection (listCollection ten) (paging "6" "0") None None
  = Ok {| items := [0; 1; 2; 3; 4; 5]%nat; nextId := Some 6;
          previousId := None; total := 10 |}.
Proof. vm_compute. reflexivity. Qed.

Example second_page :
  paginateCollection (listCollection ten) (paging "6" "6") None None
  = Ok {| items := [6; 7; 8; 9]%nat; nextId := None;
          previousId := Some 0; total := 10 |}.
Proof. vm_compute. reflexivity. Qed.

Example stale_cursor :
  paginateCollection (listCollection ten) (paging "6" "20") None None
  = Ok {| items := [4; 5; 6; 7; 8; 9]%nat; nextId := None;
          previousId := None; total := 10 |}.
Proof. vm_compute. reflexivity. Qed.

Example malformed_paging :
  paginateCollection (listCollection ten) (paging "six" "") None None
  = Ok {| items := [0; 1; 2; 3; 4; 5]%nat; nextId := Some 6;
          previousId := None; total := 10 |}.
Proof. vm_compute. reflexivity. Qed.

(** A negative limit puts the clamped cursor beyond the total. *)
Example negative_limit_cursor :
  effectiveCursor (listCollection ten) (paging "-3" "20") None = Ok 13.
Proof. vm_compute. reflexivity. Qed.

(** C1 fails as stated: a negative cursor is below the total and is used
    as it is, so the effective cursor is negative. *)
Lemma effectiveCursor_negative :
  countDocuments (listCollection ten) (fun _ => true) = Ok 10%nat
  /\ effectiveCursor (listCollection ten) (paging "6" "-5") None = Ok (-5)
  /\ ~ (0 <= -5 <= 10).
Proof. split; [|split]; [vm_compute; reflexivity .. | lia]. Qed.

(** C3 fails as stated: with limit -3 the effective cursor 0 is below the
    total 10, and no page has [min (-3) 10] items. *)
Lemma page_length_negative_limit :
  exists page,
    paginateCollection (listCollection ten) (paging "-3" "0") None None = Ok page
    /\ pageSize (paging "-3" "0") = -3
    /\ adjustedCursor (cursor (paging "-3" "0")) (total page)
         (pageSize (paging "-3" "0")) < total page
    /\ Z.of_nat (length (items page))
       <> Z.min (pageSize (paging "-3" "0"))
            (total page
             - adjustedCursor (cursor (paging "-3" "0")) (total page)
                 (pageSize (paging "-3" "0"))).
Proof.
  eexists. split; [vm_compute; reflexivity|].
  split; [vm_compute; reflexivity|].
  split; vm_compute; congruence.
Qed.

(** *** Instances *)

Lemma effectiveCursor_in_range_witness :
  exists eff, effectiveCursor (listCollection ten) (paging "6" "20") None = Ok eff
              /\ 0 <= eff <= Z.of_nat 10.
Proof.
  apply (effectiveCursor_in_range (listCollection ten) (paging "6" "20") None 10).
  - reflexivity.
  - vm_compute. discriminate.
  - vm_compute. discriminate.
Defined.

Lemma paginateCollection_clamp_witness :
  (Z.of_nat 10 <= cursor (paging "6" "20") ->
   effectiveCursor (listCollection ten) (paging "6" "20") None = Ok 4
   /\ paginateCollection (listCollection ten) (paging "6" "20") None None
      = Ok {| items := [4; 5; 6; 7; 8; 9]%nat; nextId := None;
              previousId := None; total := 10 |})
  /\ (cursor (paging "6" "20") < Z.of_nat 10 ->
      effectiveCursor (listCollection ten) (paging "6" "20") None = Ok 20
      /\ paginateCollection (listCollection ten) (paging "6" "20") None None
         = Ok {| items := []; nextId := None; previousId := Some 14;
                 total := 10 |}).
Proof.
  apply (paginateCollection_clamp (listCollection ten) (paging "6" "20") None None 10).
  reflexivity.
Defined.

Lemma page_neighbours_witness :
  let page := {| items := [6; 7; 8; 9]%nat; nextId := None;
                 previousId := Some 0; total := 10 |} in
  let eff := adjustedCursor (cursor (paging "6" "6")) (total page)
               (pageSize (paging "6" "6")) in
  effectiveCursor (listCollection ten) (paging "6" "6") None = Ok eff
  /\ (forall n, nextId page = Some n <->
                eff + pageSize (paging "6" "6") < total page
                /\ n = eff + pageSize (paging "6" "6"))
  /\ (forall n, previousId page = Some n <->
                0 <= eff - pageSize (paging "6" "6")
                /\ n = eff - pageSize (paging "6" "6")).
Proof.
  apply (page_neighbours (listCollection ten) (paging "6" "6") None None).
  vm_compute. reflexivity.
Defined.

Lemma page_length_witness :
  exists page,
    paginateCollection (listCollection ten) (paging "6" "6") None None = Ok page
    /\ total page = Z.of_nat (length (selected ten None))
    /\ let eff := adjustedCursor (cursor (paging "6" "6")) (total page)
                    (pageSize (paging "6" "6")) in
       (eff < total page ->
        Z.of_nat (length (items page))
        = Z.min (pageSize (paging "6" "6")) (total page - eff))
       /\ (total page <= eff -> length (items page) = 0%nat).
Proof.
  apply (page_length ten (paging "6" "6") None None).
  - vm_compute. discriminate.
  - vm_compute. discriminate.
Defined.

Lemma page_nonempty_witness :
  exists page,
    paginateCollection (listCollection ten) (paging "6" "20") None None = Ok page
    /\ items page <> []
    /\ (total page <= cursor (paging "6" "20") ->
        items page
        = map (default id None)
            (drop (length (selected ten None) - Z.to_nat (pageSize (paging "6" "20")))
               (selected ten None))).
Proof.
  apply (page_nonempty ten (paging "6" "20") None None).
  - vm_compute. lia.
  - vm_compute. discriminate.
  - vm_compute. discriminate.
Defined.

End PaginationProps.

(** * Properties of documents and stages *)

Module BsonProps.
Import Bson.

Lemma get_set_eq k v d : get_field k (set_field k v d) = Some v.
Proof.
  induction d as [|[k' v'] d IH]; simpl.
  - rewrite decide_True; done.
  - destruct (decide (k' = k)); simpl.
    + rewrite decide_True; done.
    + rewrite decide_False; done.
Qed.

Lemma get_set_ne k k' v d :
  k <> k' -> get_field k' (set_field k v d) = get_field k' d.
Proof.
  intros Hne. induction d as [|[k0 v0] d IH]; simpl.
  - rewrite decide_False; done.
  - destruct (decide (k0 = k)) as [->|]; simpl.
    + rewrite !decide_False; done.
    + destruct (decide (k0 = k')); done.
Qed.

Lemma get_remove_eq k d : get_field k (remove_field k d) = None.
Proof.
  unfold remove_field. induction d as [|[k' v'] d IH]; simpl; [done|].
  destruct (bool_decide_reflect (k' = k)); simpl; [done|].
  rewrite decide_False; done.
Qed.

Lemma get_remove_ne k k' d :
  k <> k' -> get_field k' (remove_field k d) = get_field k' d.
Proof.
  intros Hne. unfold remove_field. induction d as [|[k0 v0] d IH]; simpl; [done|].
  destruct (bool_decide_reflect (k0 = k)) as [->|]; simpl.
  - rewrite decide_False; done.
  - destruct (decide (k0 = k')); done.
Qed.

Lemma get_exclude_nested_eq k1 k2 d :
  get_field k1 (exclude_nested k1 k2 d) = exclude_in k2 <$> get_field k1 d.
Proof.
  unfold exclude_nested. induction d as [|[k v] d IH]; simpl; [done|].
  destruct (decide (k = k1)); simpl.
  - rewrite decide_True; done.
  - rewrite decide_False; done.
Qed.

Lemma get_exclude_nested_ne k k1 k2 d :
  k1 <> k -> get_field k (exclude_nested k1 k2 d) = get_field k d.
Proof.
  intros Hne. unfold exclude_nested. induction d as [|[k0 v] d IH]; simpl; [done|].
  destruct (decide (k0 = k1)) as [->|]; simpl.
  - rewrite !decide_False by done. done.
  - destruct (decide (k0 = k)); done.
Qed.

Lemma lacks_key_exclude_in k v : lacks_key k (exclude_in k v).
Proof.
  destruct v as [| | | | | |l|f]; simpl; try done.
  - apply List.Forall_forall. intros e He. apply in_map_iff in He as (e0 & <- & _).
    destruct e0; try done. apply get_remove_eq.
  - apply get_remove_eq.
Qed.

Lemma lacks_key_exclude_other k k' v :
  lacks_key k v -> lacks_key k (exclude_in k' v).
Proof.
  destruct (decide (k' = k)) as [->|Hne]; [intros _; apply lacks_key_exclude_in|].
  destruct v as [| | | | | |l|f]; simpl; try done.
  - rewrite !List.Forall_forall. intros Hl e He.
    apply in_map_iff in He as (e0 & <- & He0). specialize (Hl e0 He0).
    destruct e0; try done. by rewrite get_remove_ne.
  - intros Hf. by rewrite get_remove_ne.
Qed.

(** *** The sort stage *)

Lemma bool_compare_antisym x y : bool_compare y x = CompOpp (bool_compare x y).
Proof. by destruct x, y. Qed.

Lemma bson_compare_antisym a b : bson_compare b a = CompOpp (bson_compare a b).
Proof.
  unfold bson_compare.
  rewrite (Nat.compare_antisym (type_rank a) (type_rank b)).
  destruct (Nat.compare_spec (type_rank a) (type_rank b)) as [Heq|Hlt|Hgt];
    simpl; try done.
  destruct a, b; simpl in *; try done.
  - apply bool_compare_antisym.
  - symmetry. apply Qcompare_antisym.
  - apply String.compare_antisym.
  - apply Z.compare_antisym.
  - apply String.compare_antisym.
Qed.

Lemma key_compare_antisym a b : key_compare b a = CompOpp (key_compare a b).
Proof. destruct a, b; simpl; try done. apply bson_compare_antisym. Qed.

Lemma sort_compare_antisym spec a b :
  sort_compare spec b a = CompOpp (sort_compare spec a b).
Proof.
  induction spec as [|[k asc] spec IH]; simpl; [done|].
  rewrite (key_compare_antisym (sort_key asc (field_or_null (get_field k a)))).
  destruct asc, (key_compare _ _); simpl; done.
Qed.

Global Instance sort_before_total spec : Total (sort_before spec).
Proof.
  intros a b. unfold sort_before. rewrite (sort_compare_antisym spec a b).
  destruct (sort_compare spec a b); simpl; [left|left|right]; done.
Qed.

Lemma sort_stage_sorted spec docs : Sorted (sort_before spec) (sort_stage spec docs).
Proof. apply (Sorted_merge_sort _). Qed.

Lemma sort_stage_perm spec docs : sort_stage spec docs ≡ₚ docs.
Proof. apply merge_sort_Permutation. Qed.

End BsonProps.

(** * Properties of the recommendation handlers *)

Module RecommendationProps.
Import Js Bson Recommendations BsonProps Samples LiteralRegex.

(** *** The join leaves every field but [added_by] alone *)

Lemma lookup_get_ne from localField foreignField as_ d k :
  as_ <> k -> get_field k (lookup from localField foreignField as_ d) = get_field k d.
Proof. intros Hne. unfold lookup. by rewrite get_set_ne. Qed.

Lemma unwind_get_ne path d c k :
  In c (unwind_preserve path d) -> path <> k -> get_field k c = get_field k d.
Proof.
  unfold unwind_preserve. intros Hc Hne.
  destruct (get_field path d) as [[| | | | | |[|e l]|]|]; simpl in Hc;
    try (destruct Hc as [<-|[]]; done).
  - destruct Hc as [<-|[]]. by rewrite get_remove_ne.
  - destruct Hc as [<-|Hc]; [by rewrite get_set_ne|].
    apply in_map_iff in Hc as (e' & <- & _). by rewrite get_set_ne.
Qed.

Lemma unwind_nonempty path d : exists c, In c (unwind_preserve path d).
Proof.
  unfold unwind_preserve.
  destruct (get_field path d) as [[| | | | | |[|e l]|]|]; simpl; eauto.
Qed.

Lemma joined_from db docs c :
  In c (unwind_added_by (lookup_added_by db docs)) ->
  exists d, In d docs /\ forall k, "added_by" <> k -> get_field k c = get_field k d.
Proof.
  unfold unwind_added_by, lookup_added_by. intros Hc.
  apply in_flat_map in Hc as (d' & Hd' & Hc).
  apply in_map_iff in Hd' as (d & <- & Hd).
  exists d. split; [done|]. intros k Hk.
  rewrite (unwind_get_ne _ _ _ _ Hc Hk). by apply lookup_get_ne.
Qed.

Lemma joined_of db docs d :
  In d docs ->
  exists c, In c (unwind_added_by (lookup_added_by db docs))
            /\ forall k, "added_by" <> k -> get_field k c = get_field k d.
Proof.
  intros Hd. unfold unwind_added_by, lookup_added_by.
  destruct (unwind_nonempty "added_by"
              (lookup (collection_docs db "users") "added_by" "_id" "added_by" d))
    as [c Hc].
  exists c. split.
  - apply in_flat_map. eexists. split; [|exact Hc]. by apply in_map.
  - intros k Hk. rewrite (unwind_get_ne _ _ _ _ Hc Hk). by apply lookup_get_ne.
Qed.



(** *** The two [$addFields] stages on a listing of the data model *)




(** *** The handlers' answers *)

Lemma In_take {A} (n : nat) (l : list A) (a : A) : In a (take n l) -> In a l.
Proof.
  intros Ha. rewrite <- (take_drop n l). apply in_or_app. by left.
Qed.


Lemma basic_body `{RegexEngine} (db : Database) petCollection query body e :
  getPetRecommendations db petCollection query = Json200 body ->
  In e body -> exists d, e = basic_project d.
Proof.
  unfold getPetRecommendations, basic_pipeline.
  destruct (district_regex _) as [m|msg]; simpl; [|done].
  unfold limit_stage. destruct (parsedLimit query) as [n|]; [|done].
  destruct (0 <? n); [|done]. intros [= <-] He.
  apply In_take in He.
  apply (Permutation_in _ (sort_stage_perm _ _)) in He.
  apply in_map_iff in He as (d & <- & _). eauto.
Qed.

Lemma advanced_body `{RegexEngine} (db : Database) petCollection now query body e :
  getAdvancedPetRecommendations db petCollection now query = Json200 body ->
  In e body -> exists d, e = advanced_project d.
Proof.
  unfold getAdvancedPetRecommendations, advanced_pipeline.
  destruct (district_regex _) as [m|msg]; simpl; [|done].
  destruct (advanced_scored _ _ _ _ _) as [scored|msg]; simpl; [|done].
  destruct (limit_stage _ _) as [limited|msg]; simpl; [|done].
  intros [= <-] He. apply in_map_iff in He as (d & <- & _). eauto.
Qed.

Lemma added_by_stripped d v :
  exclude_in "email" <$> (exclude_in "password" <$> get_field "added_by" d) = Some v ->
  lacks_key "password" v /\ lacks_key "email" v.
Proof.
  destruct (get_field "added_by" d) as [v0|]; simpl; [|done].
  intros [= <-]. split.
  - apply lacks_key_exclude_other, lacks_key_exclude_in.
  - apply lacks_key_exclude_in.
Qed.

(** C7: an entry returned by either mode has no [password] and no [email]
    key in its [added_by], and an entry of the advanced mode has none of
    the three score fields. *)
Theorem recommendations_stripped `{RegexEngine} (db : Database) petCollection
    now query :
  (forall body e v,
     getPetRecommendations db petCollection query = Json200 body ->
     In e body ->
     get_field "added_by" e = Some v ->
     lacks_key "password" v /\ lacks_key "email" v)
  /\ (forall body e,
        getAdvancedPetRecommendations db petCollection now query = Json200 body ->
        In e body ->
        (forall v, get_field "added_by" e = Some v ->
                   lacks_key "password" v /\ lacks_key "email" v)
        /\ get_field "locationScore" e = None
        /\ get_field "freshnessScore" e = None
        /\ get_field "totalScore" e = None).
Proof.
  split.
  - intros body e v Hbody He Hv.
    destruct (basic_body db petCollection query body e Hbody He) as [d ->].
    unfold basic_project in Hv. rewrite !get_exclude_nested_eq in Hv.
    by eapply added_by_stripped.
  - intros body e Hbody He.
    destruct (advanced_body db petCollection now query body e Hbody He) as [d ->].
    unfold advanced_project. split; [|split; [|split]].
    + intros v Hv. rewrite !get_exclude_nested_eq in Hv.
      by eapply added_by_stripped.
    + rewrite !get_exclude_nested_ne by done.
      rewrite !get_remove_ne by done. apply get_remove_eq.
    + rewrite !get_exclude_nested_ne by done.
      rewrite get_remove_ne by done. apply get_remove_eq.
    + rewrite !get_exclude_nested_ne by done. apply get_remove_eq.
Qed.

(** C10: a lone category [c] is wrapped into the one-element list of it,
    which is also what the list [[c]] is read as; each mode then runs its
    pipeline with that list, so that [$in] is given [[c]] and holds of a
    listing of category [c], and the lone category and the one-element
    list get the same answer. Nothing else of the request is read
    through [categories]. *)
Theorem single_category_as_list `{RegexEngine} (db : Database) petCollection
    now (query : Query) (c : string) :
  let lone := <["categories" := QString c]> query in
  let listed := <["categories" := QArray [c]]> query in
  categoryArray (QString c) = [QString c]
  /\ categoryArray (QArray [c]) = [QString c]
  /\ map to_bson (categoryArray (QString c)) = [VStr c]
  /\ query_in (map to_bson (categoryArray (QString c))) (Some (VStr c)) = true
  /\ getPetRecommendations db petCollection lone
     = match basic_pipeline db petCollection [QString c]
               (query_get query "district") (parsedLimit query) with
       | Ok recommendations => Json200 recommendations
       | Err message => Json500 "Failed to fetch recommendations" message
       end
  /\ getAdvancedPetRecommendations db petCollection now lone
     = match advanced_pipeline db petCollection [QString c]
               (query_get query "district") (parsedLimit query) now with
       | Ok recommendations => Json200 recommendations
       | Err message => Json500 "Failed to fetch recommendations" message
       end
  /\ getPetRecommendations db petCollection lone
     = getPetRecommendations db petCollection listed
  /\ getAdvancedPetRecommendations db petCollection now lone
     = getAdvancedPetRecommendations db petCollection now listed.
Proof.
  intros lone listed. subst lone listed.
  split; [reflexivity|]. split; [reflexivity|]. split; [reflexivity|].
  split.
  { change (value_eqb (VStr c) (VStr c) || false || false = true).
    change (bool_decide (c = c) || false || false = true).
    by rewrite bool_decide_eq_true_2. }
  unfold getPetRecommendations, getAdvancedPetRecommendations, parsedLimit,
    query_get.
  rewrite !lookup_insert_eq, !lookup_insert_ne by done. simpl. done.
Qed.

(** *** Scenarios *)

Example advanced_sample :
  ids (@getAdvancedPetRecommendations literal_engine db "allPets" (100 * day)
         (wanted (QString "cat")))
  = [Some (VOid "p1"); Some (VOid "p2"); Some (VOid "p4")].
Proof. vm_compute. reflexivity. Qed.

Example basic_sample :
  ids (@getPetRecommendations literal_engine db "allPets" (wanted (QString "cat")))
  = [Some (VOid "p1"); Some (VOid "p4")].
Proof. vm_compute. reflexivity. Qed.

(** The lister joined to the first entry, without [password] and
    [email]. *)
Example stripped_sample :
  match @getPetRecommendations literal_engine db "allPets" (wanted (QString "cat"))
  with
  | Json200 (e :: _) => get_field "added_by" e
  | _ => None
  end
  = Some (VDoc [("_id", VOid "u1"); ("name", VStr "Ann")]).
Proof. vm_compute. reflexivity. Qed.

(** The fresher of two matching listings ranks first in either insertion
    order. *)
Example fresher_first :
  ids (@getAdvancedPetRecommendations literal_engine fresh_then_old "allPets"
         (100 * day) (wanted (QString "cat")))
  = [Some (VOid "new"); Some (VOid "old")]
  /\ ids (@getAdvancedPetRecommendations literal_engine old_then_fresh "allPets"
            (100 * day) (wanted (QString "cat")))
     = [Some (VOid "new"); Some (VOid "old")].
Proof. split; vm_compute; reflexivity. Qed.

(** At equal freshness a matching location ranks before a missing one. *)
Example location_match_first :
  ids (@getAdvancedPetRecommendations literal_engine nowhere_then_dhaka "allPets"
         (100 * day) (wanted (QString "cat")))
  = [Some (VOid "dhaka"); Some (VOid "nowhere")].
Proof. vm_compute. reflexivity. Qed.

(** A listing fifteen days old has freshness -5: the score is not clamped
    at zero. *)
Example old_listing_freshness :
  exists d f,
    add_scores dhaka (100 * day) (pet "old" "cat" (Some "Dhaka") (85 * day)) = Ok d
    /\ get_field "freshnessScore" d = Some (VNum f)
    /\ (f == -5)%Q.
Proof. eexists _, _. split; [reflexivity|]. split; reflexivity. Qed.

(** Outside the data model: a [created_at] that is not a date is rejected
    by [$subtract], and the handler answers 500. *)
Example iso_created_at_rejected :
  @getAdvancedPetRecommendations literal_engine iso_listing "allPets" (100 * day)
    (wanted (QString "cat"))
  = Json500 "Failed to fetch recommendations"
      "$subtract only supports numeric or date types".
Proof. vm_compute. reflexivity. Qed.

(** A limit that is not a positive number is rejected by [$limit]. *)
Example zero_limit_rejected :
  @getPetRecommendations literal_engine db "allPets"
    (<["limit" := QString "0"]> (wanted (QString "cat")))
  = Json500 "Failed to fetch recommendations" "the limit must be positive".
Proof. vm_compute. reflexivity. Qed.

(** *** Instances *)

Lemma recommendations_stripped_witness :
  (forall body e v,
     @getPetRecommendations literal_engine db "allPets" (wanted (QString "cat"))
     = Json200 body ->
     In e body ->
     get_field "added_by" e = Some v ->
     lacks_key "password" v /\ lacks_key "email" v)
  /\ (forall body e,
        @getAdvancedPetRecommendations literal_engine db "allPets" (100 * day)
          (wanted (QString "cat")) = Json200 body ->
        In e body ->
        (forall v, get_field "added_by" e = Some v ->
                   lacks_key "password" v /\ lacks_key "email" v)
        /\ get_field "locationScore" e = None
        /\ get_field "freshnessScore" e = None
        /\ get_field "totalScore" e = None).
Proof.
  exact (@recommendations_stripped literal_engine db "allPets" (100 * day)
           (wanted (QString "cat"))).
Defined.

End RecommendationProps.

(** * More properties of the paginator *)

Module PaginationExtra.
Import Js Store Pagination Observations Samples PaginationProps.

Lemma In_drop {A} (n : nat) (l : list A) (a : A) : In a (drop n l) -> In a l.
Proof.
  intros Ha. rewrite <- (take_drop n l). apply in_or_app. by right.
Qed.

Section abstract_store.
Context {Doc Filter Projection : Type}.
Implicit Types (collection : Collection Doc Filter Projection).

(** X1: the cursors handed back by a well-formed request are valid
    cursors: each lies in [[0, total)] and is left as it is when it is
    sent back with the same limit. *)
Theorem returned_cursors_valid collection query filter projection (page : Page Doc) :
  paginateCollection collection query filter projection = Ok page ->
  0 <= cursor query ->
  1 <= pageSize query ->
  (forall n, nextId page = Some n ->
             0 < n < total page
             /\ adjustedCursor n (total page) (pageSize query) = n)
  /\ (forall p, previousId page = Some p ->
                0 <= p < total page
                /\ adjustedCursor p (total page) (pageSize query) = p).
Proof.
  unfold paginateCollection. intros Hpage Hc Hp.
  apply rbind_Ok in Hpage as (n & Hcount & Hpage).
  apply rbind_Ok in Hpage as (its & Hfind & Hpage).
  injection Hpage as <-. simpl.
  pose proof (adjustedCursor_range (cursor query) (Z.of_nat n) (pageSize query))
    as Hrange.
  split; intros k.
  - destruct (Z.ltb_spec (adjustedCursor (cursor query) (Z.of_nat n) (pageSize query)
                          + pageSize query) (Z.of_nat n)); [|discriminate].
    intros [= <-]. split; [lia|]. apply adjustedCursor_within. lia.
  - destruct (Z.geb_spec (adjustedCursor (cursor query) (Z.of_nat n) (pageSize query)
                          - pageSize query) 0); [|discriminate].
    intros [= <-]. split; [lia|]. apply adjustedCursor_within. lia.
Qed.

(** X2: a cursor at or beyond the total is answered with the last page:
    there is no [nextId], and [previousId] is [total - 2 * limit] when that
    is not negative. *)
Theorem stale_cursor_last_page collection query filter projection (page : Page Doc) :
  paginateCollection collection query filter projection = Ok page ->
  total page <= cursor query ->
  1 <= pageSize query ->
  nextId page = None
  /\ previousId page
     = (if 2 * pageSize query <=? total page
        then Some (total page - 2 * pageSize query) else None).
Proof.
  unfold paginateCollection. intros Hpage Hc Hp.
  apply rbind_Ok in Hpage as (n & Hcount & Hpage).
  apply rbind_Ok in Hpage as (its & Hfind & Hpage).
  injection Hpage as <-. simpl in *.
  rewrite adjustedCursor_beyond by assumption. split.
  - destruct (Z.ltb_spec (Z.max (Z.of_nat n - pageSize query) 0 + pageSize query)
                (Z.of_nat n)); [lia | reflexivity].
  - destruct (Z.geb_spec (Z.max (Z.of_nat n - pageSize query) 0 - pageSize query) 0),
      (Z.leb_spec (2 * pageSize query) (Z.of_nat n)); try lia; [|reflexivity].
    f_equal. lia.
Qed.

End abstract_store.

Section list_store.
Context {Doc : Type}.
Implicit Types (docs : list Doc) (filter : option (Doc -> bool))
  (projection : option (Doc -> Doc)).

(** X3: on a well-formed request, item [j] of the page is the selected
    document at position [effectiveCursor + j], projected, for [j] below
    the limit; there is no item from the limit on. *)
Theorem page_item_at docs query filter projection (j : nat) :
  0 <= cursor query ->
  1 <= pageSize query ->
  exists page,
    paginateCollection (listCollection docs) query filter projection = Ok page
    /\ let eff := adjustedCursor (cursor query) (total page) (pageSize query) in
       items page !! j
       = if decide (j < Z.to_nat (pageSize query))%nat
         then default id projection
                <$> selected docs filter !! (Z.to_nat eff + j)%nat
         else None.
Proof.
  intros Hc Hp.
  destruct (paginate_list docs query filter projection Hc Hp) as [Hrange Hpage].
  eexists. split; [exact Hpage|]. simpl.
  change (map ?f ?l) with (f <$> l). rewrite list_lookup_fmap.
  destruct (decide (j < Z.to_nat (pageSize query))%nat).
  - rewrite lookup_take_lt by assumption. by rewrite lookup_drop.
  - rewrite lookup_take_ge by lia. reflexivity.
Qed.

(** X4: whatever the request, a page the list store answers with never
    holds more documents than the magnitude of the limit, the limit is
    never zero, and every item is the projection of a selected document. *)
Theorem page_bounded docs query filter projection (page : Page Doc) :
  paginateCollection (listCollection docs) query filter projection = Ok page ->
  pageSize query <> 0
  /\ (length (items page) <= Z.abs_nat (pageSize query))%nat
  /\ (forall x, In x (items page) ->
        exists d, In d (selected docs filter) /\ x = default id projection d).
Proof.
  unfold paginateCollection, listCollection. simpl.
  fold (selected docs filter). intros Hpage.
  destruct (Z.ltb_spec (adjustedCursor (cursor query)
                          (Z.of_nat (length (selected docs filter)))
                          (pageSize query)) 0); [discriminate|].
  pose proof (pageSize_nonzero query) as Hnz.
  destruct (Z.eqb_spec (pageSize query) 0); [done|].
  simpl in Hpage. injection Hpage as <-. simpl.
  split; [done|]. split.
  - rewrite List.length_map, length_take. lia.
  - intros x Hx. apply in_map_iff in Hx as (d & <- & Hd).
    exists d. split; [|done].
    eapply In_drop, RecommendationProps.In_take, Hd.
Qed.

(** X5: following [nextId] continues where the page ends: the page is
    full, and it and the page at [nextId] (same limit) together are the
    run of [2 * limit] selected documents from the effective cursor, none
    skipped and none repeated. *)
Theorem next_page_adjacent docs query query' filter projection (page : Page Doc) n :
  paginateCollection (listCollection docs) query filter projection = Ok page ->
  0 <= cursor query ->
  1 <= pageSize query ->
  nextId page = Some n ->
  pageSize query' = pageSize query ->
  cursor query' = n ->
  exists page',
    paginateCollection (listCollection docs) query' filter projection = Ok page'
    /\ length (items page) = Z.to_nat (pageSize query)
    /\ items page ++ items page'
       = map (default id projection)
           (take (Z.to_nat (pageSize query) + Z.to_nat (pageSize query))
              (drop (Z.to_nat (adjustedCursor (cursor query) (total page)
                                 (pageSize query)))
                 (selected docs filter))).
Proof.
  intros Hpage Hc Hp Hnext HL' Hc'.
  destruct (paginate_list docs query filter projection Hc Hp) as [Hrange Hq].
  rewrite Hq in Hpage. injection Hpage as <-. simpl in *.
  set (tot := Z.of_nat (length (selected docs filter))) in *.
  set (eff := adjustedCursor (cursor query) tot (pageSize query)) in *.
  destruct (Z.ltb_spec (eff + pageSize query) tot) as [Hlt|]; [|discriminate].
  injection Hnext as <-.
  destruct (paginate_list docs query' filter projection) as [_ Hq'];
    [lia | lia |].
  fold tot in Hq'. rewrite Hc', HL' in Hq'.
  rewrite (adjustedCursor_within (eff + pageSize query)) in Hq' by lia.
  eexists. split; [exact Hq'|]. simpl. split.
  - rewrite List.length_map, length_take, length_drop. lia.
  - rewrite <- List.map_app. f_equal.
    replace (Z.to_nat (eff + pageSize query))
      with (Z.to_nat eff + Z.to_nat (pageSize query))%nat by lia.
    rewrite <- drop_drop. apply take_take_drop.
Qed.

(** X6: following [previousId] leads to the full page that ends where
    this one starts. *)
Theorem previous_page_adjacent docs query query' filter projection
    (page : Page Doc) p :
  paginateCollection (listCollection docs) query filter projection = Ok page ->
  0 <= cursor query ->
  1 <= pageSize query ->
  previousId page = Some p ->
  pageSize query' = pageSize query ->
  cursor query' = p ->
  exists page',
    paginateCollection (listCollection docs) query' filter projection = Ok page'
    /\ length (items page') = Z.to_nat (pageSize query)
    /\ items page' ++ items page
       = map (default id projection)
           (take (Z.to_nat (pageSize query) + Z.to_nat (pageSize query))
              (drop (Z.to_nat p) (selected docs filter))).
Proof.
  intros Hpage Hc Hp Hprev HL' Hc'.
  destruct (paginate_list docs query filter projection Hc Hp) as [Hrange Hq].
  rewrite Hq in Hpage. injection Hpage as <-. simpl in *.
  set (tot := Z.of_nat (length (selected docs filter))) in *.
  set (eff := adjustedCursor (cursor query) tot (pageSize query)) in *.
  destruct (Z.geb_spec (eff - pageSize query) 0) as [Hge|]; [|discriminate].
  injection Hprev as <-.
  destruct (paginate_list docs query' filter projection) as [_ Hq'];
    [lia | lia |].
  fold tot in Hq'. rewrite Hc', HL' in Hq'.
  rewrite (adjustedCursor_within (eff - pageSize query)) in Hq' by lia.
  eexists. split; [exact Hq'|]. simpl. split.
  - rewrite List.length_map, length_take, length_drop. lia.
  - rewrite <- List.map_app. f_equal.
    replace (Z.to_nat eff)
      with (Z.to_nat (eff - pageSize query) + Z.to_nat (pageSize query))%nat
      by lia.
    rewrite <- drop_drop. apply take_take_drop.
Qed.

(** X7: when the limit is at least the total, a request with cursor 0 or
    with a stale cursor gets every selected document on one page with no
    neighbour in either direction. *)
Theorem single_page docs query filter projection :
  Z.of_nat (length (selected docs filter)) <= pageSize query ->
  cursor query = 0 \/ Z.of_nat (length (selected docs filter)) <= cursor query ->
  paginateCollection (listCollection docs) query filter projection
  = Ok {| items := map (default id projection) (selected docs filter);
          nextId := None; previousId := None;
          total := Z.of_nat (length (selected docs filter)) |}.
Proof.
  intros HL Hc. pose proof (pageSize_nonzero query) as Hnz.
  destruct (paginate_list docs query filter projection) as [_ Hq]; [lia | lia |].
  rewrite Hq. clear Hq.
  set (tot := Z.of_nat (length (selected docs filter))) in *.
  assert (Heff : adjustedCursor (cursor query) tot (pageSize query) = 0).
  { destruct (Z_lt_le_dec (cursor query) tot).
    - rewrite adjustedCursor_within by assumption. lia.
    - rewrite adjustedCursor_beyond by assumption. lia. }
  rewrite Heff. simpl. rewrite drop_0, take_ge by (unfold tot in HL; lia).
  destruct (Z.ltb_spec (0 + pageSize query) tot); [lia|].
  destruct (Z.geb_spec (0 - pageSize query) 0); [lia|]. reflexivity.
Qed.

(** X8: walking the pages from cursor 0 in steps of the limit, as
    [nextId] directs, shows every selected document once and in order:
    each page but the last names the next cursor, the last names none, and
    the pages' items joined are the whole selection. *)
Theorem walk_covers docs (q : nat -> Query) filter projection (L : Z) (n : nat) :
  1 <= L ->
  (forall k, (k < n)%nat -> pageSize (q k) = L /\ cursor (q k) = Z.of_nat k * L) ->
  (Z.of_nat n - 1) * L < Z.of_nat (length (selected docs filter)) <= Z.of_nat n * L ->
  (forall k, (k < n)%nat ->
     exists page,
       paginateCollection (listCollection docs) (q k) filter projection = Ok page
       /\ nextId page
          = if decide (k + 1 < n)%nat then Some (Z.of_nat (k + 1) * L) else None)
  /\ flat_map
       (fun k => items_of (paginateCollection (listCollection docs) (q k)
                             filter projection))
       (seq 0 n)
     = map (default id projection) (selected docs filter).
Proof.
  intros HL Hq Hn.
  set (tot := Z.of_nat (length (selected docs filter))) in *.
  assert (Hpage : forall k, (k < n)%nat ->
            paginateCollection (listCollection docs) (q k) filter projection
            = Ok {| items := map (default id projection)
                               (take (Z.to_nat L)
                                  (drop (k * Z.to_nat L) (selected docs filter)));
                    nextId := if Z.of_nat k * L + L <? tot
                              then Some (Z.of_nat k * L + L) else None;
                    previousId := if Z.of_nat k * L - L >=? 0
                                  then Some (Z.of_nat k * L - L) else None;
                    total := tot |}).
  { intros k Hk. destruct (Hq k Hk) as [HLk Hck].
    destruct (paginate_list docs (q k) filter projection) as [_ Hp]; [nia | lia |].
    rewrite Hp. fold tot. rewrite HLk, Hck.
    rewrite adjustedCursor_within by nia.
    replace (Z.to_nat (Z.of_nat k * L)) with (k * Z.to_nat L)%nat by nia.
    reflexivity. }
  split.
  - intros k Hk. eexists. split; [exact (Hpage k Hk)|]. simpl.
    destruct (decide (k + 1 < n)%nat), (Z.ltb_spec (Z.of_nat k * L + L) tot);
      try nia; [f_equal; nia | reflexivity].
  - assert (Hprefix : forall m, (m <= n)%nat ->
              flat_map
                (fun k => items_of (paginateCollection (listCollection docs) (q k)
                                      filter projection))
                (seq 0 m)
              = map (default id projection)
                  (take (m * Z.to_nat L) (selected docs filter))).
    { induction m as [|m IH]; intros Hm; [reflexivity|].
      rewrite seq_S, flat_map_app, IH by lia. simpl.
      rewrite (Hpage m) by lia. simpl. rewrite app_nil_r, <- List.map_app.
      f_equal. rewrite take_take_drop. f_equal. lia. }
    rewrite (Hprefix n) by lia. f_equal. apply take_ge. unfold tot in Hn. nia.
Qed.

End list_store.

(** *** Instances *)

Lemma returned_cursors_valid_witness :
  let page := {| items := [0; 1; 2; 3; 4; 5]%nat; nextId := Some 6;
                 previousId := None; total := 10 |} in
  (forall n, nextId page = Some n ->
             0 < n < total page
             /\ adjustedCursor n (total page) (pageSize (paging "6" "0")) = n)
  /\ (forall p, previousId page = Some p ->
                0 <= p < total page
                /\ adjustedCursor p (total page) (pageSize (paging "6" "0")) = p).
Proof.
  apply (returned_cursors_valid (listCollection ten) (paging "6" "0") None None).
  - vm_compute. reflexivity.
  - vm_compute. discriminate.
  - vm_compute. discriminate.
Defined.

Lemma stale_cursor_last_page_witness :
  let page := {| items := [4; 5; 6; 7; 8; 9]%nat; nextId := None;
                 previousId := None; total := 10 |} in
  nextId page = None
  /\ previousId page
     = (if 2 * pageSize (paging "6" "20") <=? total page
        then Some (total page - 2 * pageSize (paging "6" "20")) else None).
Proof.
  apply (stale_cursor_last_page (listCollection ten) (paging "6" "20") None None).
  - vm_compute. reflexivity.
  - vm_compute. discriminate.
  - vm_compute. discriminate.
Defined.

Lemma page_item_at_witness :
  exists page,
    paginateCollection (listCollection ten) (paging "6" "6") None None = Ok page
    /\ let eff := adjustedCursor (cursor (paging "6" "6")) (total page)
                    (pageSize (paging "6" "6")) in
       items page !! 1%nat
       = if decide (1 < Z.to_nat (pageSize (paging "6" "6")))%nat
         then default id None <$> selected ten None !! (Z.to_nat eff + 1)%nat
         else None.
Proof.
  apply (page_item_at ten (paging "6" "6") None None 1).
  - vm_compute. discriminate.
  - vm_compute. discriminate.
Defined.

Lemma page_bounded_witness :
  let page := {| items := [6; 7; 8; 9]%nat; nextId := None;
                 previousId := Some 0; total := 10 |} in
  pageSize (paging "6" "6") <> 0
  /\ (length (items page) <= Z.abs_nat (pageSize (paging "6" "6")))%nat
  /\ (forall x, In x (items page) ->
        exists d, In d (selected ten None) /\ x = default id None d).
Proof.
  apply (page_bounded ten (paging "6" "6") None None).
  vm_compute. reflexivity.
Defined.

Lemma next_page_adjacent_witness :
  let page := {| items := [0; 1; 2; 3; 4; 5]%nat; nextId := Some 6;
                 previousId := None; total := 10 |} in
  exists page',
    paginateCollection (listCollection ten) (paging "6" "6") None None = Ok page'
    /\ length (items page) = Z.to_nat (pageSize (paging "6" "0"))
    /\ items page ++ items page'
       = map (default id None)
           (take (Z.to_nat (pageSize (paging "6" "0"))
                  + Z.to_nat (pageSize (paging "6" "0")))
              (drop (Z.to_nat (adjustedCursor (cursor (paging "6" "0"))
                                 (total page) (pageSize (paging "6" "0"))))
                 (selected ten None))).
Proof.
  apply (next_page_adjacent ten (paging "6" "0") (paging "6" "6") None None _ 6).
  - vm_compute. reflexivity.
  - vm_compute. discriminate.
  - vm_compute. discriminate.
  - reflexivity.
  - vm_compute. reflexivity.
  - vm_compute. reflexivity.
Defined.

Lemma previous_page_adjacent_witness :
  let page := {| items := [6; 7; 8; 9]%nat; nextId := None;
                 previousId := Some 0; total := 10 |} in
  exists page',
    paginateCollection (listCollection ten) (paging "6" "0") None None = Ok page'
    /\ length (items page') = Z.to_nat (pageSize (paging "6" "6"))
    /\ items page' ++ items page
       = map (default id None)
           (take (Z.to_nat (pageSize (paging "6" "6"))
                  + Z.to_nat (pageSize (paging "6" "6")))
              (drop (Z.to_nat 0) (selected ten None))).
Proof.
  apply (previous_page_adjacent ten (paging "6" "6") (paging "6" "0") None None _ 0).
  - vm_compute. reflexivity.
  - vm_compute. discriminate.
  - vm_compute. discriminate.
  - reflexivity.
  - vm_compute. reflexivity.
  - vm_compute. reflexivity.
Defined.

Lemma single_page_witness :
  paginateCollection (listCollection ten) (paging "25" "40") None None
  = Ok {| items := map (default id None) (selected ten None);
          nextId := None; previousId := None;
          total := Z.of_nat (length (selected ten None)) |}.
Proof.
  apply (single_page ten (paging "25" "40") None None).
  - vm_compute. discriminate.
  - right. vm_compute. discriminate.
Defined.

Lemma walk_covers_witness :
  let q := fun k : nat => paging "6" (match k with O => "0" | _ => "6" end) in
  (forall k, (k < 2)%nat ->
     exists page,
       paginateCollection (listCollection ten) (q k) None None = Ok page
       /\ nextId page
          = if decide (k + 1 < 2)%nat then Some (Z.of_nat (k + 1) * 6) else None)
  /\ flat_map
       (fun k => items_of (paginateCollection (listCollection ten) (q k) None None))
       (seq 0 2)
     = map (default id None) (selected ten None).
Proof.
  apply (walk_covers ten
           (fun k : nat => paging "6" (match k with O => "0" | _ => "6" end))
           None None 6 2).
  - lia.
  - intros [|[|k]] Hk; [split; vm_compute; reflexivity .. | lia].
  - vm_compute. split; [reflexivity | discriminate].
Defined.

End PaginationExtra.

(** * The sort order is a total preorder *)

Module OrderProps.
Import Bson BsonProps.

(** A comparison function that behaves as an order: swapping the
    arguments flips the result, equal keys compare alike against a third,
    and [Lt] is transitive. *)
Section comparisons.
Context {A : Type} (cmp : A -> A -> comparison).
Hypothesis antisym : forall a b, cmp b a = CompOpp (cmp a b).
Hypothesis eq_l : forall a b c, cmp a b = Eq -> cmp a c = cmp b c.
Hypothesis lt_trans : forall a b c, cmp a b = Lt -> cmp b c = Lt -> cmp a c = Lt.

Lemma cmp_eq_r a b c : cmp b c = Eq -> cmp a b = cmp a c.
Proof.
  intros Hbc. rewrite (antisym b a), (antisym c a). f_equal.
  apply eq_l. exact Hbc.
Qed.

Lemma cmp_gt_trans a b c : cmp a b = Gt -> cmp b c = Gt -> cmp a c = Gt.
Proof.
  intros Hab Hbc. rewrite (antisym c a).
  rewrite (lt_trans c b a); [reflexivity | |].
  - rewrite (antisym b c), Hbc. reflexivity.
  - rewrite (antisym a b), Hab. reflexivity.
Qed.

Lemma cmp_le_trans a b c : cmp a b <> Gt -> cmp b c <> Gt -> cmp a c <> Gt.
Proof.
  intros Hab Hbc. destruct (cmp a b) eqn:Eab; [| |done].
  - by rewrite (eq_l a b c Eab).
  - destruct (cmp b c) eqn:Ebc; [| |done].
    + by rewrite <- (cmp_eq_r a b c Ebc), Eab.
    + by rewrite (lt_trans a b c Eab Ebc).
Qed.

End comparisons.

Lemma ascii_compare_lt_trans (a b c : ascii) :
  Ascii.compare a b = Lt -> Ascii.compare b c = Lt -> Ascii.compare a c = Lt.
Proof.
  unfold Ascii.compare. rewrite !N.compare_lt_iff. lia.
Qed.

Lemma string_compare_lt_trans (a b c : string) :
  String.compare a b = Lt -> String.compare b c = Lt -> String.compare a c = Lt.
Proof.
  revert b c. induction a as [|x a IH]; intros [|y b] [|z c]; simpl; try done.
  destruct (Ascii.compare x y) eqn:Exy; [| |done].
  - apply Ascii.compare_eq_iff in Exy as ->.
    destruct (Ascii.compare y z); [apply IH | done | done].
  - intros _. destruct (Ascii.compare y z) eqn:Eyz; [| |done].
    + apply Ascii.compare_eq_iff in Eyz as <-. by rewrite Exy.
    + by rewrite (ascii_compare_lt_trans x y z Exy Eyz).
Qed.

Lemma bson_compare_eq_l a b c :
  bson_compare a b = Eq -> bson_compare a c = bson_compare b c.
Proof.
  unfold bson_compare.
  destruct (Nat.compare_spec (type_rank a) (type_rank b)) as [Hrank| |];
    [|done|done].
  rewrite Hrank. intros Hab.
  destruct (Nat.compare (type_rank b) (type_rank c)) eqn:Hbc; [|done|done].
  apply Nat.compare_eq in Hbc.
  destruct a, b; simpl in Hrank; try discriminate;
    destruct c; simpl in Hbc; try discriminate; try reflexivity.
  - by destruct b0, b, b1.
  - apply Qeq_alt in Hab. by rewrite Hab.
  - by apply String.compare_eq_iff in Hab as ->.
  - by apply Z.compare_eq in Hab as ->.
  - by apply String.compare_eq_iff in Hab as ->.
Qed.

Lemma bson_compare_lt_trans a b c :
  bson_compare a b = Lt -> bson_compare b c = Lt -> bson_compare a c = Lt.
Proof.
  unfold bson_compare.
  destruct (Nat.compare_spec (type_rank a) (type_rank b)) as [Hab|Hab|Hab];
    [| |done];
    (destruct (Nat.compare_spec (type_rank b) (type_rank c)) as [Hbc|Hbc|Hbc];
       [| |done]).
  - assert (Hac : type_rank a = type_rank c) by lia.
    rewrite Hac, Nat.compare_refl.
    destruct a, b; simpl in Hab; try discriminate;
      destruct c; simpl in Hbc; try discriminate; try done.
    + by destruct b0, b, b1.
    + rewrite <- !Qlt_alt. apply Qlt_trans.
    + apply string_compare_lt_trans.
    + rewrite !Z.compare_lt_iff. lia.
    + apply string_compare_lt_trans.
  - intros _ _.
    assert (Hac : (type_rank a ?= type_rank c)%nat = Lt)
      by (apply Nat.compare_lt_iff; lia).
    by rewrite Hac.
  - intros _ _.
    assert (Hac : (type_rank a ?= type_rank c)%nat = Lt)
      by (apply Nat.compare_lt_iff; lia).
    by rewrite Hac.
  - intros _ _.
    assert (Hac : (type_rank a ?= type_rank c)%nat = Lt)
      by (apply Nat.compare_lt_iff; lia).
    by rewrite Hac.
Qed.

Lemma key_compare_eq_l a b c :
  key_compare a b = Eq -> key_compare a c = key_compare b c.
Proof.
  destruct a, b; simpl; try done; destruct c; simpl; try done.
  apply bson_compare_eq_l.
Qed.

Lemma key_compare_lt_trans a b c :
  key_compare a b = Lt -> key_compare b c = Lt -> key_compare a c = Lt.
Proof.
  destruct a, b; simpl; try done; destruct c; simpl; try done.
  apply bson_compare_lt_trans.
Qed.

Lemma sort_compare_eq_l spec a b c :
  sort_compare spec a b = Eq -> sort_compare spec a c = sort_compare spec b c.
Proof.
  induction spec as [|[k asc] spec IH]; simpl; [done|].
  set (ka := sort_key asc (field_or_null (get_field k a))).
  set (kb := sort_key asc (field_or_null (get_field k b))).
  set (kc := sort_key asc (field_or_null (get_field k c))).
  destruct (key_compare ka kb) eqn:Hab.
  - rewrite (key_compare_eq_l ka kb kc Hab). destruct asc; simpl; intros H.
    + destruct (key_compare kb kc); auto.
    + destruct (key_compare kb kc); simpl; auto.
  - by destruct asc.
  - by destruct asc.
Qed.

Lemma sort_compare_lt_trans spec a b c :
  sort_compare spec a b = Lt -> sort_compare spec b c = Lt ->
  sort_compare spec a c = Lt.
Proof.
  induction spec as [|[k asc] spec IH]; simpl; [done|].
  set (ka := sort_key asc (field_or_null (get_field k a))).
  set (kb := sort_key asc (field_or_null (get_field k b))).
  set (kc := sort_key asc (field_or_null (get_field k c))).
  pose proof (key_compare_eq_l ka kb kc) as Heql.
  pose proof (cmp_eq_r key_compare key_compare_antisym key_compare_eq_l ka kb kc)
    as Heqr.
  pose proof (key_compare_lt_trans ka kb kc) as Hlt.
  pose proof (cmp_gt_trans key_compare key_compare_antisym key_compare_lt_trans
                ka kb kc) as Hgt.
  destruct (key_compare ka kb) eqn:Hab, (key_compare kb kc) eqn:Hbc;
    try rewrite (Heql eq_refl); try rewrite <- (Heqr eq_refl);
    try rewrite (Hlt eq_refl eq_refl); try rewrite (Hgt eq_refl eq_refl);
    destruct asc; simpl; auto; try done.
Qed.

Global Instance sort_before_trans spec : Transitive (sort_before spec).
Proof.
  intros a b c. unfold sort_before.
  apply (cmp_le_trans (sort_compare spec)).
  - apply sort_compare_antisym.
  - apply sort_compare_eq_l.
  - apply sort_compare_lt_trans.
Qed.

Lemma sort_stage_strongly_sorted spec docs :
  StronglySorted (sort_before spec) (sort_stage spec docs).
Proof. apply (StronglySorted_merge_sort _). Qed.

(** In a strongly sorted list the relation holds between any earlier and
    any later member. *)
Lemma StronglySorted_lookup {A} (R : relation A) (l : list A) (i j : nat) (a b : A) :
  StronglySorted R l -> (i < j)%nat -> l !! i = Some a -> l !! j = Some b -> R a b.
Proof.
  intros Hs. revert i j. induction Hs as [|x l Hs IH Hx]; intros i j Hij Hi Hj.
  - done.
  - destruct j as [|j]; [lia|]. destruct i as [|i]; simpl in *.
    + injection Hi as <-. rewrite List.Forall_forall in Hx. apply Hx.
      apply list_elem_of_In. by eapply list_elem_of_lookup_2.
    + apply (IH i j); [lia | done | done].
Qed.

End OrderProps.

(** * More properties of the recommendation handlers *)

Module RecommendationExtra.
Import Js Bson Recommendations Routes BsonProps OrderProps RecommendationProps.
Import Samples RouteSamples LiteralRegex.

(** *** What succeeds and what fails in [rmapM] *)

Lemma rmapM_Forall2 {A B} (f : A -> result B) (l : list A) (l' : list B) :
  rmapM f l = Ok l' -> Forall2 (fun a b => f a = Ok b) l l'.
Proof.
  revert l'. induction l as [|a l IH]; simpl; intros l' Hl.
  - injection Hl as <-. constructor.
  - apply rbind_Ok in Hl as (b & Hb & Hl).
    apply rbind_Ok in Hl as (bs & Hbs & Hl). injection Hl as <-.
    constructor; [exact Hb | by apply IH].
Qed.

Lemma rmapM_In_Err {A B} (f : A -> result B) (l : list A) (a : A) (m : string) :
  In a l -> f a = Err m -> exists m', rmapM f l = Err m'.
Proof.
  intros Ha Hf. induction l as [|x l IH]; simpl in *; [done|].
  destruct (f x) as [b|mx] eqn:Hx; simpl; [|eauto].
  destruct Ha as [->|Ha]; [congruence|].
  destruct (IH Ha) as [m' ->]. simpl. eauto.
Qed.

Lemma Forall2_In_r {A B} (R : A -> B -> Prop) (l : list A) (l' : list B) (b : B) :
  Forall2 R l l' -> In b l' -> exists a, In a l /\ R a b.
Proof.
  induction 1 as [|x y l l' Hxy _ IH]; simpl; [done|].
  intros [<-|Hb]; [eauto|]. destruct (IH Hb) as (a & Ha & Hab). eauto.
Qed.

(** *** The scoring stages touch the score fields only *)

Lemma add_scores_fields m now c d :
  add_scores m now c = Ok d ->
  forall k, "locationScore" <> k -> "freshnessScore" <> k ->
            get_field k d = get_field k c.
Proof.
  unfold add_scores. intros Hd k Hk1 Hk2.
  apply rbind_Ok in Hd as (matches & _ & Hd).
  apply rbind_Ok in Hd as (age & _ & Hd).
  apply rbind_Ok in Hd as (days & _ & Hd).
  apply rbind_Ok in Hd as (fresh & _ & Hd).
  injection Hd as <-. by rewrite !get_set_ne.
Qed.

Lemma add_total_fields d d' :
  add_total d = Ok d' ->
  forall k, "totalScore" <> k -> get_field k d' = get_field k d.
Proof.
  unfold add_total. intros Hd k Hk.
  apply rbind_Ok in Hd as (t & _ & Hd). injection Hd as <-.
  by rewrite get_set_ne.
Qed.

Lemma scored_from db petCollection categoryArray m now scored x :
  advanced_scored db petCollection categoryArray m now = Ok scored ->
  In x scored ->
  exists c, In c (advanced_candidates db petCollection categoryArray m)
    /\ forall k, "locationScore" <> k -> "freshnessScore" <> k ->
                 "totalScore" <> k -> get_field k x = get_field k c.
Proof.
  unfold advanced_scored. intros Hscored Hx.
  apply rbind_Ok in Hscored as (s1 & Hs1 & Hs2).
  apply rmapM_Forall2 in Hs1. apply rmapM_Forall2 in Hs2.
  destruct (Forall2_In_r _ _ _ x Hs2 Hx) as (y & Hy & Hyx).
  destruct (Forall2_In_r _ _ _ y Hs1 Hy) as (c & Hc & Hcy).
  exists c. split; [exact Hc|]. intros k H1 H2 H3.
  rewrite (add_total_fields _ _ Hyx) by done.
  by apply (add_scores_fields _ _ _ _ Hcy).
Qed.

(** *** Where an entry comes from *)

Lemma basic_entry_origin `{RegexEngine} (db : Database) petCollection query body e :
  getPetRecommendations db petCollection query = Json200 body ->
  In e body ->
  exists pattern m d,
    query_get query "district" = QString pattern
    /\ regex_compile pattern "i" = Some m
    /\ In d (collection_docs db petCollection)
    /\ basic_query (categoryArray (query_get query "categories")) m d = true
    /\ forall k, "added_by" <> k -> get_field k e = get_field k d.
Proof.
  unfold getPetRecommendations, basic_pipeline, district_regex.
  destruct (query_get query "district") as [|pattern|] eqn:Hdistrict; try done.
  destruct (regex_compile pattern "i") as [m|] eqn:Hcompile; [|done]. simpl.
  unfold limit_stage. destruct (parsedLimit query) as [n|]; [|done].
  destruct (0 <? n); [|done]. intros [= <-] He.
  apply In_take in He.
  apply (Permutation_in _ (sort_stage_perm _ _)) in He.
  apply in_map_iff in He as (j & <- & Hj).
  apply joined_from in Hj as (d & Hd & Hk).
  apply filter_In in Hd as [Hd Hq].
  exists pattern, m, d. repeat (split; [done|]).
  intros k Hne. unfold basic_project.
  rewrite !get_exclude_nested_ne by done. by apply Hk.
Qed.

Lemma advanced_entry_origin `{RegexEngine} (db : Database) petCollection now
    query body e :
  getAdvancedPetRecommendations db petCollection now query = Json200 body ->
  In e body ->
  exists pattern m d,
    query_get query "district" = QString pattern
    /\ regex_compile pattern "i" = Some m
    /\ In d (collection_docs db petCollection)
    /\ advanced_query (categoryArray (query_get query "categories")) m d = true
    /\ forall k, "added_by" <> k -> "locationScore" <> k ->
                 "freshnessScore" <> k -> "totalScore" <> k ->
                 get_field k e = get_field k d.
Proof.
  unfold getAdvancedPetRecommendations, advanced_pipeline, district_regex.
  destruct (query_get query "district") as [|pattern|] eqn:Hdistrict; try done.
  destruct (regex_compile pattern "i") as [m|] eqn:Hcompile; [|done]. simpl.
  destruct (advanced_scored _ _ _ _ _) as [scored|] eqn:Hscored; [|done]. simpl.
  unfold limit_stage. destruct (parsedLimit query) as [n|]; [|done].
  destruct (0 <? n); [|done]. simpl. intros [= <-] He.
  apply in_map_iff in He as (x & <- & Hx).
  apply In_take in Hx.
  apply (Permutation_in _ (sort_stage_perm _ _)) in Hx.
  destruct (scored_from _ _ _ _ _ _ _ Hscored Hx) as (c & Hc & Hxc).
  apply joined_from in Hc as (d & Hd & Hcd).
  apply filter_In in Hd as [Hd Hq].
  exists pattern, m, d. repeat (split; [done|]).
  intros k H0 H1 H2 H3. unfold advanced_project.
  rewrite !get_exclude_nested_ne by done. rewrite !get_remove_ne by done.
  rewrite Hxc by done. by apply Hcd.
Qed.

(** X9: every entry the basic mode returns is a stored listing, unchanged
    but for [added_by], that is in a wanted category, not adopted, and
    whose location matches the district. *)
Theorem basic_entries_wanted `{RegexEngine} (db : Database) petCollection query
    body e :
  getPetRecommendations db petCollection query = Json200 body ->
  In e body ->
  exists pattern m d,
    query_get query "district" = QString pattern
    /\ regex_compile pattern "i" = Some m
    /\ In d (collection_docs db petCollection)
    /\ (forall k, "added_by" <> k -> get_field k e = get_field k d)
    /\ query_in (map to_bson (categoryArray (query_get query "categories")))
         (get_field "category" e) = true
    /\ query_regex m (get_field "location" e) = true
    /\ query_eq (VBool false) (get_field "adopted" e) = true.
Proof.
  intros Hbody He.
  destruct (basic_entry_origin db petCollection query body e Hbody He)
    as (pattern & m & d & Hdistrict & Hcompile & Hd & Hq & Hk).
  exists pattern, m, d. repeat (split; [done|]).
  unfold basic_query in Hq. rewrite !Hk by done.
  apply andb_prop in Hq as [Hq Hadopted]. apply andb_prop in Hq as [Hcat Hloc].
  done.
Qed.

(** X10: every entry the advanced mode returns is a stored listing,
    unchanged but for [added_by] and the score fields, that is in a wanted
    category, not adopted, and whose location matches the district or is
    absent. *)
Theorem advanced_entries_wanted `{RegexEngine} (db : Database) petCollection now
    query body e :
  getAdvancedPetRecommendations db petCollection now query = Json200 body ->
  In e body ->
  exists pattern m d,
    query_get query "district" = QString pattern
    /\ regex_compile pattern "i" = Some m
    /\ In d (collection_docs db petCollection)
    /\ (forall k, "added_by" <> k -> "locationScore" <> k ->
                  "freshnessScore" <> k -> "totalScore" <> k ->
                  get_field k e = get_field k d)
    /\ query_in (map to_bson (categoryArray (query_get query "categories")))
         (get_field "category" e) = true
    /\ (query_regex m (get_field "location" e) = true
        \/ get_field "location" e = None)
    /\ query_eq (VBool false) (get_field "adopted" e) = true.
Proof.
  intros Hbody He.
  destruct (advanced_entry_origin db petCollection now query body e Hbody He)
    as (pattern & m & d & Hdistrict & Hcompile & Hd & Hq & Hk).
  exists pattern, m, d. repeat (split; [done|]).
  unfold advanced_query in Hq. rewrite !Hk by done.
  apply andb_prop in Hq as [Hq Hloc]. apply andb_prop in Hq as [Hcat Hadopted].
  repeat (split; [done|]). split; [|done].
  apply orb_prop in Hloc as [Hloc|Hloc]; [by left|right].
  unfold query_exists in Hloc. destruct (get_field "location" d); [done|done].
Qed.

(** X11: the basic mode lists newest first: of two returned entries
    whose [created_at] are dates the later date is first, of two whose
    [created_at] are strings the greater string is first, and an entry
    with a string never stands before one with a date. *)
Theorem basic_newest_first `{RegexEngine} (db : Database) petCollection query
    body (i j : nat) a b :
  getPetRecommendations db petCollection query = Json200 body ->
  (i < j)%nat ->
  body !! i = Some a ->
  body !! j = Some b ->
  (forall ca cb, get_field "created_at" a = Some (VDate ca) ->
                 get_field "created_at" b = Some (VDate cb) -> cb <= ca)
  /\ (forall sa sb, get_field "created_at" a = Some (VStr sa) ->
                    get_field "created_at" b = Some (VStr sb) ->
                    String.compare sa sb <> Lt)
  /\ (forall sa cb, get_field "created_at" a = Some (VStr sa) ->
                    get_field "created_at" b = Some (VDate cb) -> False).
Proof.
  intros Hbody Hij Ha Hb.
  assert (Hsorted : StronglySorted (sort_before [("created_at", false)]) body).
  { revert Hbody. unfold getPetRecommendations, basic_pipeline.
    destruct (district_regex _) as [m|]; simpl; [|done].
    unfold limit_stage. destruct (parsedLimit query) as [n|]; [|done].
    destruct (0 <? n); [|done]. intros [= <-].
    eapply StronglySorted_app_1_l. rewrite take_drop.
    apply sort_stage_strongly_sorted. }
  pose proof (StronglySorted_lookup _ _ _ _ _ _ Hsorted Hij Ha Hb) as Hab.
  unfold sort_before, sort_compare in Hab.
  split; [|split].
  - intros ca cb Hca Hcb. rewrite Hca, Hcb in Hab. cbn in Hab.
    destruct (Z.compare ca cb) eqn:Hcmp; simpl in Hab.
    + apply Z.compare_eq in Hcmp. lia.
    + done.
    + apply Z.compare_gt_iff in Hcmp. lia.
  - intros sa sb Hsa Hsb. rewrite Hsa, Hsb in Hab. cbn in Hab.
    intros Hlt. rewrite Hlt in Hab. by apply Hab.
  - intros sa cb Hsa Hcb. rewrite Hsa, Hcb in Hab. by apply Hab.
Qed.

(** X12: the basic mode cannot fail on the stored data: it answers 200
    exactly when the district is a string that compiles as a pattern and
    the limit parses to a positive number, and 500 with the fixed error
    text otherwise. *)
Theorem basic_answers `{RegexEngine} (db : Database) petCollection query :
  let accepted :=
    exists pattern m n,
      query_get query "district" = QString pattern
      /\ regex_compile pattern "i" = Some m
      /\ parsedLimit query = Some n /\ 0 < n in
  match getPetRecommendations db petCollection query with
  | Json200 _ => accepted
  | Json500 error _ =>
      error = "Failed to fetch recommendations" /\ ~ accepted
  end.
Proof.
  unfold getPetRecommendations, basic_pipeline, district_regex. simpl.
  destruct (query_get query "district") as [|pattern|] eqn:Hdistrict; simpl;
    try (split; [done|]; intros (? & ? & ? & ? & _); done).
  destruct (regex_compile pattern "i") as [m|] eqn:Hcompile; simpl;
    [|split; [done|]; intros (? & ? & ? & [= <-] & ? & _); congruence].
  unfold limit_stage. destruct (parsedLimit query) as [n|] eqn:Hlimit;
    [|split; [done|]; intros (? & ? & ? & _ & _ & ? & _); done].
  destruct (Z.ltb_spec 0 n).
  - exists pattern, m, n. done.
  - split; [done|]. intros (? & ? & n' & _ & _ & [= <-] & ?). lia.
Qed.

(** X13: neither mode returns more entries than the parsed limit, which
    is positive, and which is 12 when the query names none. *)
Theorem recommendations_limited `{RegexEngine} (db : Database) petCollection now
    (query : Query) :
  (forall body,
     getPetRecommendations db petCollection query = Json200 body ->
     exists n, parsedLimit query = Some n /\ 0 < n
               /\ (length body <= Z.to_nat n)%nat
               /\ (query !! "limit" = None -> n = 12))
  /\ (forall body,
        getAdvancedPetRecommendations db petCollection now query = Json200 body ->
        exists n, parsedLimit query = Some n /\ 0 < n
                  /\ (length body <= Z.to_nat n)%nat
                  /\ (query !! "limit" = None -> n = 12)).
Proof.
  assert (Hdefault : forall n, parsedLimit query = Some n ->
                               query !! "limit" = None -> n = 12).
  { unfold parsedLimit, query_get. intros n Hn Hnone. rewrite Hnone in Hn.
    simpl in Hn. vm_compute in Hn. congruence. }
  split; intros body.
  - unfold getPetRecommendations, basic_pipeline.
    destruct (district_regex _) as [m|]; simpl; [|done].
    unfold limit_stage. destruct (parsedLimit query) as [n|] eqn:Hlimit; [|done].
    destruct (Z.ltb_spec 0 n); [|done]. intros [= <-].
    exists n. repeat (split; [done|]). split; [|by apply Hdefault].
    rewrite length_take. lia.
  - unfold getAdvancedPetRecommendations, advanced_pipeline.
    destruct (district_regex _) as [m|]; simpl; [|done].
    destruct (advanced_scored _ _ _ _ _) as [scored|]; simpl; [|done].
    unfold limit_stage. destruct (parsedLimit query) as [n|] eqn:Hlimit; [|done].
    destruct (Z.ltb_spec 0 n); [|done]. simpl. intros [= <-].
    exists n. repeat (split; [done|]). split; [|by apply Hdefault].
    rewrite List.length_map, length_take. lia.
Qed.

(** *** The categories as a set *)

Lemma existsb_same {A} (P : A -> bool) (l l' : list A) :
  (forall x, In x l <-> In x l') -> existsb P l = existsb P l'.
Proof.
  intros Hll'. apply eq_true_iff_eq. rewrite !existsb_exists.
  split; intros (x & Hx & HP); exists x; (split; [by apply Hll' | done]).
Qed.

Lemma query_in_same (arr arr' : list value) (field : option value) :
  (forall x, In x arr <-> In x arr') -> query_in arr field = query_in arr' field.
Proof.
  intros Harr. unfold query_in.
  induction (match_targets (field_or_null field)) as [|t ts IH]; simpl; [done|].
  by rewrite IH, (existsb_same _ arr arr').
Qed.

Lemma wanted_same (l l' : list string) :
  (forall c, In c l <-> In c l') ->
  forall x, In x (map to_bson (map QString l)) <-> In x (map to_bson (map QString l')).
Proof.
  intros Hll' x. rewrite !List.map_map, !in_map_iff.
  split; intros (c & <- & Hc); exists c; (split; [done | by apply Hll']).
Qed.

(** X14: the list of categories counts as a set: two lists with the same
    members, in any order and with any repetitions, get the same answer in
    both modes. *)
Theorem categories_as_set `{RegexEngine} (db : Database) petCollection now
    (query : Query) (l l' : list string) :
  (forall c, In c l <-> In c l') ->
  getPetRecommendations db petCollection (<["categories" := QArray l]> query)
  = getPetRecommendations db petCollection (<["categories" := QArray l']> query)
  /\ getAdvancedPetRecommendations db petCollection now
       (<["categories" := QArray l]> query)
     = getAdvancedPetRecommendations db petCollection now
         (<["categories" := QArray l']> query).
Proof.
  intros Hll'.
  unfold getPetRecommendations, getAdvancedPetRecommendations, parsedLimit,
    query_get.
  rewrite !lookup_insert_eq, !lookup_insert_ne by done. simpl.
  unfold basic_pipeline, advanced_pipeline, advanced_scored, advanced_candidates,
    match_stage.
  destruct (district_regex _) as [m|]; simpl; [|done].
  rewrite (List.filter_ext (basic_query (map QString l) m)
             (basic_query (map QString l') m)).
  2:{ intros d. unfold basic_query.
      by rewrite (query_in_same _ _ _ (wanted_same l l' Hll')). }
  rewrite (List.filter_ext (advanced_query (map QString l) m)
             (advanced_query (map QString l') m)).
  2:{ intros d. unfold advanced_query.
      by rewrite (query_in_same _ _ _ (wanted_same l l' Hll')). }
  done.
Qed.

(** X15: a query without [categories] asks for the listings that have no
    category: in neither mode does a returned entry have a string as its
    category. *)
Theorem no_categories_no_named `{RegexEngine} (db : Database) petCollection now
    (query : Query) :
  query !! "categories" = None ->
  (forall body e s,
     getPetRecommendations db petCollection query = Json200 body ->
     In e body -> get_field "category" e <> Some (VStr s))
  /\ (forall body e s,
        getAdvancedPetRecommendations db petCollection now query = Json200 body ->
        In e body -> get_field "category" e <> Some (VStr s)).
Proof.
  intros Hnone.
  assert (Hcats : categoryArray (query_get query "categories") = [QUndefined]).
  { unfold query_get. rewrite Hnone. reflexivity. }
  split; intros body e s Hbody He Hcat.
  - destruct (basic_entry_origin db petCollection query body e Hbody He)
      as (pattern & m & d & _ & _ & _ & Hq & Hk).
    rewrite Hcats in Hq. unfold basic_query in Hq.
    rewrite <- (Hk "category") in Hq by done. rewrite Hcat in Hq. done.
  - destruct (advanced_entry_origin db petCollection now query body e Hbody He)
      as (pattern & m & d & _ & _ & _ & Hq & Hk).
    rewrite Hcats in Hq. unfold advanced_query in Hq.
    rewrite <- (Hk "category") in Hq by done. rewrite Hcat in Hq. done.
Qed.

(** X16: the advanced [$match] passes what the basic one passes, and
    besides that exactly the wanted, not adopted listings that have no
    [location] field. *)
Theorem advanced_includes_basic (db : Database) petCollection
    (categoryArray : list QueryValue) (m : string -> bool) (d : doc) :
  In d (match_stage (advanced_query categoryArray m)
          (collection_docs db petCollection))
  <-> In d (match_stage (basic_query categoryArray m)
              (collection_docs db petCollection))
      \/ (In d (collection_docs db petCollection)
          /\ query_in (map to_bson categoryArray) (get_field "category" d) = true
          /\ query_eq (VBool false) (get_field "adopted" d) = true
          /\ get_field "location" d = None).
Proof.
  unfold match_stage. rewrite !filter_In. unfold advanced_query, basic_query.
  destruct (query_in _ _), (query_eq _ _); simpl;
    destruct (get_field "location" d) as [v|] eqn:Hloc; simpl;
    try (destruct (query_regex m (Some v))); simpl; intuition congruence.
Qed.


(** *** Listings the scoring rejects *)

Lemma add_scores_rejects m now c v :
  get_field "created_at" c = Some v ->
  v <> VNull ->
  (forall ms, v <> VDate ms) ->
  exists message, add_scores m now c = Err message.
Proof.
  intros Hcreated Hnull Hdate. unfold add_scores. rewrite Hcreated.
  destruct (regexMatch m (get_field "location" c)) as [matches|]; simpl; [|eauto].
  destruct v; simpl; eauto; try done. by destruct (Hdate ms).
Qed.

Lemma scoring_fails `{RegexEngine} (db : Database) petCollection now query
    pattern m c message :
  query_get query "district" = QString pattern ->
  regex_compile pattern "i" = Some m ->
  In c (advanced_candidates db petCollection
          (categoryArray (query_get query "categories")) m) ->
  add_scores m now c = Err message ->
  exists message',
    getAdvancedPetRecommendations db petCollection now query
    = Json500 "Failed to fetch recommendations" message'.
Proof.
  intros Hdistrict Hcompile Hc Hfail.
  unfold getAdvancedPetRecommendations, advanced_pipeline, district_regex.
  rewrite Hdistrict, Hcompile. simpl. unfold advanced_scored.
  destruct (rmapM_In_Err _ _ _ _ Hc Hfail) as [message' ->]. simpl. eauto.
Qed.

(** X18: one listing that passes [$match] with a [created_at] that is
    neither a date nor null makes the advanced mode answer 500, whatever
    else is stored. *)
Theorem advanced_rejects_non_dates `{RegexEngine} (db : Database) petCollection
    now query pattern m d v :
  query_get query "district" = QString pattern ->
  regex_compile pattern "i" = Some m ->
  In d (collection_docs db petCollection) ->
  advanced_query (categoryArray (query_get query "categories")) m d = true ->
  get_field "created_at" d = Some v ->
  v <> VNull ->
  (forall ms, v <> VDate ms) ->
  exists message,
    getAdvancedPetRecommendations db petCollection now query
    = Json500 "Failed to fetch recommendations" message.
Proof.
  intros Hdistrict Hcompile Hd Hq Hcreated Hnull Hdate.
  destruct (joined_of db
              (match_stage
                 (advanced_query (categoryArray (query_get query "categories")) m)
                 (collection_docs db petCollection)) d)
    as (c & Hc & Hk).
  { apply filter_In. done. }
  destruct (add_scores_rejects m now c v) as [message Hfail]; [|done|done|].
  { rewrite Hk by done. exact Hcreated. }
  by eapply scoring_fails.
Qed.

(** *** A listing without [created_at] *)








(** *** POST /add-pet, then the recommendations *)

Lemma insertOne_Ok generated docs d docs' id :
  insertOne generated docs d = Ok (docs', id) ->
  exists d', docs' = docs ++ [d']
             /\ forall k, "_id" <> k -> get_field k d' = get_field k d.
Proof.
  unfold insertOne. destruct (existsb _ docs); [done|]. intros [= <- <-].
  eexists. split; [reflexivity|]. intros k Hk.
  destruct (get_field "_id" d) as [[]|]; try done; by rewrite get_set_ne.
Qed.

(** X19: a listing stored by POST /add-pet carries its [created_at] as
    text, so once one is stored that the advanced [$match] passes, the
    advanced mode answers 500; the basic mode, asked the same with a
    well-formed limit, still answers 200. *)
Theorem added_pet_breaks_advanced `{RegexEngine} `{DateFormat} generated
    (db db' : Database) (body : doc) insertedId stamp now query pattern m n :
  addPet generated stamp db body = Ok (db', insertedId) ->
  query_get query "district" = QString pattern ->
  regex_compile pattern "i" = Some m ->
  parsedLimit query = Some n ->
  0 < n ->
  advanced_query (categoryArray (query_get query "categories")) m body = true ->
  (exists message,
     getAdvancedPetRecommendations db' "allPets" now query
     = Json500 "Failed to fetch recommendations" message)
  /\ (exists recommendations,
        getPetRecommendations db' "allPets" query = Json200 recommendations).
Proof.
  intros Hadd Hdistrict Hcompile Hlimit Hn Hq. split.
  - unfold addPet in Hadd. apply rbind_Ok in Hadd as ([pets id] & Hins & Hadd).
    injection Hadd as <- <-. simpl.
    apply insertOne_Ok in Hins as (d' & -> & Hk).
    assert (Hfields : forall k, "_id" <> k -> "created_at" <> k ->
                                get_field k d' = get_field k body).
    { intros k H1 H2. rewrite Hk by done. by rewrite get_set_ne. }
    destruct (joined_of (<["allPets" := collection_docs db "allPets" ++ [d']]> db)
                (match_stage
                   (advanced_query (categoryArray (query_get query "categories")) m)
                   (collection_docs
                      (<["allPets" := collection_docs db "allPets" ++ [d']]> db)
                      "allPets")) d')
      as (c & Hc & Hcd).
    { apply filter_In. split.
      - unfold collection_docs at 1. rewrite lookup_insert_eq. simpl.
        apply in_or_app. right. by left.
      - revert Hq. unfold advanced_query. by rewrite !Hfields. }
    destruct (add_scores_rejects m now c (VStr (toISOString stamp)))
      as [message Hfail]; [|done|done|].
    { rewrite Hcd by done. rewrite Hk by done. apply get_set_eq. }
    by eapply scoring_fails.
  - unfold getPetRecommendations, basic_pipeline, district_regex.
    rewrite Hdistrict, Hcompile, Hlimit. simpl.
    destruct (Z.ltb_spec 0 n); [eauto | lia].
Qed.

End RecommendationExtra.

(** * The advanced mode on listings as POST /add-pet stores them *)

Module AddedListings.
Import Js Bson Recommendations Routes Samples RouteSamples LiteralRegex.

(** C5, on a listing as the application stores it: POST /add-pet on an
    empty collection stores the listing with its [created_at] as text; the
    listing is the one candidate of the advanced mode, the scoring stage
    is rejected on it, and the handler answers 500 instead of a ranked
    list, while the basic mode returns the listing. The same listing with
    a date as [created_at] is ranked and returned. *)
Theorem advanced_ranking_after_add_pet `{DateFormat} (stamp now : Z) :
  let stored :=
    set_field "_id" (VOid "p9")
      (set_field "created_at" (VStr (toISOString stamp)) new_pet) in
  let dated := set_field "created_at" (VDate stamp) stored in
  let added : Database := <["allPets" := [stored]]> ∅ in
  addPet (VOid "p9") stamp ∅ new_pet = Ok (added, VOid "p9")
  /\ advanced_candidates added "allPets" (categoryArray (QString "cat")) dhaka
     = [stored]
  /\ (exists message,
        advanced_scored added "allPets" (categoryArray (QString "cat")) dhaka now
        = Err message)
  /\ (exists message,
        @getAdvancedPetRecommendations literal_engine added "allPets" now
          (wanted (QString "cat"))
        = Json500 "Failed to fetch recommendations" message)
  /\ @getPetRecommendations literal_engine added "allPets"
       (wanted (QString "cat"))
     = Json200 [stored]
  /\ @getAdvancedPetRecommendations literal_engine
       (<["allPets" := [dated]]> ∅) "allPets" now (wanted (QString "cat"))
     = Json200 [dated].
Proof.
  simpl. split; [reflexivity|]. split; [reflexivity|].
  split; [eexists; reflexivity|]. split; [eexists; reflexivity|].
  split; reflexivity.
Qed.

(** C6, on a listing as the application stores it: POST /add-pet of a body
    without [location] stores a listing that the advanced [$match] lets
    through and on which the location test is false, so that its
    [locationScore] would be 5; but the scoring stage is rejected on its
    [created_at], which is text, and the handler answers 500: the listing
    receives no score. With a date as [created_at] the same listing is
    scored with [locationScore] 5 and returned. *)
Theorem location_absent_after_add_pet `{DateFormat} (stamp now : Z) :
  let stored :=
    set_field "_id" (VOid "p9")
      (set_field "created_at" (VStr (toISOString stamp)) bare_pet) in
  let dated := set_field "created_at" (VDate stamp) stored in
  let added : Database := <["allPets" := [stored]]> ∅ in
  addPet (VOid "p9") stamp ∅ bare_pet = Ok (added, VOid "p9")
  /\ get_field "location" stored = None
  /\ match_stage (advanced_query (categoryArray (QString "cat")) dhaka)
       (collection_docs added "allPets")
     = [stored]
  /\ regexMatch dhaka (get_field "location" stored) = Ok false
  /\ (exists message, add_scores dhaka now stored = Err message)
  /\ (exists message,
        @getAdvancedPetRecommendations literal_engine added "allPets" now
          (wanted (QString "cat"))
        = Json500 "Failed to fetch recommendations" message)
  /\ (exists scored,
        add_scores dhaka now dated = Ok scored
        /\ get_field "locationScore" scored = Some (VNum 5))
  /\ @getAdvancedPetRecommendations literal_engine
       (<["allPets" := [dated]]> ∅) "allPets" now (wanted (QString "cat"))
     = Json200 [dated].
Proof.
  simpl. split; [reflexivity|]. split; [reflexivity|]. split; [reflexivity|].
  split; [reflexivity|]. split; [eexists; reflexivity|].
  split; [eexists; reflexivity|].
  split; [eexists; split; reflexivity | reflexivity].
Qed.

End AddedListings.

(** * Properties of the listing routes *)

Module RouteProps.
Import Js Store Pagination Bson Recommendations Routes PaginationProps.
Import Samples RouteSamples.

(** The list store rejects exactly the requests whose parsed cursor is
    negative. *)
Lemma paginate_list_status {Doc} (docs : list Doc) query filter projection :
  match paginateCollection (listCollection docs) query filter projection with
  | Ok page =>
      0 <= cursor query
      /\ total page = Z.of_nat (length (selected docs filter))
      /\ items page
         = map (default id projection)
             (take (Z.abs_nat (pageSize query))
                (drop (Z.to_nat (adjustedCursor (cursor query) (total page)
                                   (pageSize query)))
                   (selected docs filter)))
  | Err _ => cursor query < 0
  end.
Proof.
  unfold paginateCollection, listCollection. simpl.
  fold (selected docs filter).
  set (tot := Z.of_nat (length (selected docs filter))).
  pose proof (pageSize_nonzero query) as Hnz.
  destruct (Z_lt_le_dec (cursor query) tot) as [Hlt|Hge].
  - rewrite adjustedCursor_within by assumption.
    destruct (Z.ltb_spec (cursor query) 0); simpl; [done|].
    destruct (Z.eqb_spec (pageSize query) 0); [done|]. simpl.
    rewrite adjustedCursor_within by assumption.
    by rewrite Zabs2Nat.abs_nat_spec.
  - rewrite adjustedCursor_beyond by assumption.
    destruct (Z.ltb_spec (Z.max (tot - pageSize query) 0) 0); [lia|]. simpl.
    destruct (Z.eqb_spec (pageSize query) 0); [done|]. simpl.
    rewrite adjustedCursor_beyond by assumption.
    split; [unfold tot in Hge; lia|]. by rewrite Zabs2Nat.abs_nat_spec.
Qed.

Lemma filter_true {A} (l : list A) : List.filter (fun _ => true) l = l.
Proof. induction l as [|a l IH]; simpl; [done | by rewrite IH]. Qed.

(** X20: GET /category-pets answers 400 exactly when the category is
    absent or empty; otherwise 500 exactly when the anchored pattern does
    not compile or the parsed cursor is negative; otherwise 200. *)
Theorem category_pets_status `{RegexEngine} (db : Database) (query : Query) :
  let category := query_get query "category" in
  let pattern := ("^" ++ toString category ++ "$")%string in
  match categoryPets db query with
  | Sent400 message =>
      truthy category = false /\ message = "Category is required"
  | Sent500 message _ =>
      truthy category = true /\ message = "Failed to fetch pets"
      /\ (regex_compile pattern "i" = None \/ cursor query < 0)
  | Sent200 _ =>
      truthy category = true
      /\ (exists m, regex_compile pattern "i" = Some m) /\ 0 <= cursor query
  end.
Proof.
  simpl. unfold categoryPets, compile.
  destruct (truthy (query_get query "category")); simpl; [|done].
  destruct (regex_compile _ "i") as [m|]; simpl; [|auto].
  pose proof (paginate_list_status (collection_docs db "allPets") query
                (Some (category_filter m)) None) as Hstatus.
  destruct (paginateCollection _ _ _ _) as [page|]; [|auto].
  destruct Hstatus as [Hc _]. eauto.
Qed.

(** X21: a page of GET /category-pets holds stored listings only, each
    not adopted and with a category the anchored pattern matches, and its
    total counts exactly those listings. *)
Theorem category_pets_page `{RegexEngine} (db : Database) (query : Query)
    (page : Page doc) :
  categoryPets db query = Sent200 page ->
  exists m,
    regex_compile ("^" ++ toString (query_get query "category") ++ "$")%string
      "i" = Some m
    /\ total page
       = Z.of_nat (length (List.filter (category_filter m)
                             (collection_docs db "allPets")))
    /\ forall d, In d (items page) ->
         In d (collection_docs db "allPets")
         /\ query_regex m (get_field "category" d) = true
         /\ query_eq (VBool false) (get_field "adopted" d) = true.
Proof.
  unfold categoryPets, compile.
  destruct (truthy (query_get query "category")); simpl; [|done].
  destruct (regex_compile _ "i") as [m|]; simpl; [|done].
  pose proof (paginate_list_status (collection_docs db "allPets") query
                (Some (category_filter m)) None) as Hstatus.
  destruct (paginateCollection _ _ _ _) as [page'|]; [|done].
  intros [= <-]. destruct Hstatus as (_ & Htotal & Hitems).
  exists m. split; [done|]. split; [exact Htotal|].
  intros d Hd. rewrite Hitems in Hd. simpl in Hd. rewrite map_id in Hd.
  apply RecommendationProps.In_take, PaginationExtra.In_drop in Hd.
  unfold selected in Hd. simpl in Hd. apply filter_In in Hd as [Hd Hf].
  unfold category_filter in Hf. apply andb_prop in Hf as [Hcat Hadopted]. done.
Qed.

(** X22: GET /donation-campaigns pages through the whole collection: the
    total is the number of stored campaigns and the items are the stored
    campaigns, unchanged, from the effective cursor on; the call is
    rejected exactly when the parsed cursor is negative. *)
Theorem donation_campaigns_all (db : Database) (query : Query) :
  let campaigns := collection_docs db "donationsCollection" in
  match donationCampaigns db query with
  | Ok page =>
      0 <= cursor query
      /\ total page = Z.of_nat (length campaigns)
      /\ items page
         = take (Z.abs_nat (pageSize query))
             (drop (Z.to_nat (adjustedCursor (cursor query) (total page)
                                (pageSize query)))
                campaigns)
  | Err _ => cursor query < 0
  end.
Proof.
  simpl. unfold donationCampaigns.
  pose proof (paginate_list_status (collection_docs db "donationsCollection")
                query None None) as Hstatus.
  destruct (paginateCollection _ _ _ _) as [page|]; [|done].
  assert (Hall : selected (collection_docs db "donationsCollection") None
                 = collection_docs db "donationsCollection").
  { apply filter_true. }
  rewrite Hall in Hstatus. simpl in Hstatus. by rewrite map_id in Hstatus.
Qed.

End RouteProps.

(** * Properties of the category normalisation of GET /all-pets *)

Module NormalizeProps.
Import Js Normalize.

Lemma chars_inj (s t : string) : chars s = chars t -> s = t.
Proof.
  revert t. induction s as [|c s IH]; intros [|d t]; simpl; try done.
  intros [= -> Hst]. f_equal. by apply IH.
Qed.

Lemma chars_toLowerCase s : chars (toLowerCase s) = map js_lower (chars s).
Proof. induction s as [|c s IH]; simpl; [done | by rewrite IH]. Qed.


Lemma chars_remove_all p s :
  chars (remove_all p s) = List.filter (fun c => negb (p c)) (chars s).
Proof.
  induction s as [|c s IH]; simpl; [done|].
  destruct (p c); simpl; by rewrite IH.
Qed.

Lemma trim_start_clean s :
  Forall (fun c => is_white_space c = false) (chars s) -> trim_start s = s.
Proof.
  destruct s as [|c s]; simpl; [done|]. intros Hs.
  apply Forall_cons in Hs as [-> _]. done.
Qed.

Lemma trim_end_clean s :
  Forall (fun c => is_white_space c = false) (chars s) -> trim_end s = s.
Proof.
  induction s as [|c s IH]; simpl; [done|]. intros Hs.
  apply Forall_cons in Hs as [Hc Hs]. rewrite (IH Hs), Hc.
  by destruct s.
Qed.

Lemma js_lower_idem c : js_lower (js_lower c) = js_lower c.
Proof. destruct c as [[] [] [] [] [] [] [] []]; reflexivity. Qed.



Lemma clean_chars (s : string) :
  Forall (fun c => space_or_underscore c = false /\ js_lower c = c)
    (chars (remove_all space_or_underscore (toLowerCase s))).
Proof.
  rewrite chars_remove_all, chars_toLowerCase. apply List.Forall_forall.
  intros c Hc. apply filter_In in Hc as [Hc Hp].
  apply in_map_iff in Hc as (c0 & <- & _). split.
  - by destruct (space_or_underscore (js_lower c0)).
  - apply js_lower_idem.
Qed.

Lemma not_space (c : ascii) : space_or_underscore c = false -> is_white_space c = false.
Proof. unfold space_or_underscore. by destruct (is_white_space c). Qed.

(** The closing [trim] finds nothing to remove. *)
Lemma normalize_untrimmed (v : QueryValue) (s : string) :
  normalize v = Some s ->
  s = remove_all space_or_underscore (toLowerCase (toString v)).
Proof.
  assert (Htrim : forall t,
            trim (remove_all space_or_underscore (toLowerCase t))
            = remove_all space_or_underscore (toLowerCase t)).
  { intros t. unfold trim.
    assert (Hclean : Forall (fun c => is_white_space c = false)
                       (chars (remove_all space_or_underscore (toLowerCase t)))).
    { eapply Forall_impl; [apply clean_chars|].
      intros c [Hc _]. by apply not_space. }
    rewrite (trim_start_clean _ Hclean). by apply trim_end_clean. }
  destruct v; simpl; [done| |]; intros [= <-]; apply Htrim.
Qed.

(** X23: the normal form of a requested category holds no white space,
    no underscore and no capital letter; the closing [trim] has nothing
    left to remove, and normalising a normal form gives it back. *)
Theorem normalize_normal_form (v : QueryValue) (s : string) :
  normalize v = Some s ->
  s = remove_all space_or_underscore (toLowerCase (toString v))
  /\ Forall (fun c => is_white_space c = false /\ c <> "_"%char /\ js_lower c = c)
       (chars s)
  /\ normalize (QString s) = Some s.
Proof.
  intros Hs. pose proof (normalize_untrimmed v s Hs) as Heq.
  pose proof (clean_chars (toString v)) as Hclean. rewrite <- Heq in Hclean.
  split; [exact Heq|]. split.
  - eapply Forall_impl; [exact Hclean|]. intros c [Hc Hlow].
    split; [by apply not_space|]. split; [|done].
    intros ->. revert Hc. by vm_compute.
  - assert (Hlower : toLowerCase s = s).
    { apply chars_inj. rewrite chars_toLowerCase.
      clear -Hclean. induction Hclean as [|c l [_ Hc] _ IH]; simpl; [done|].
      by rewrite Hc, IH. }
    assert (Hkept : remove_all space_or_underscore s = s).
    { apply chars_inj. rewrite chars_remove_all.
      clear -Hclean. induction Hclean as [|c l [Hc _] _ IH]; simpl; [done|].
      by rewrite Hc, IH. }
    simpl. f_equal. rewrite Hlower, Hkept. unfold trim.
    assert (Hws : Forall (fun c => is_white_space c = false) (chars s)).
    { eapply Forall_impl; [exact Hclean|]. intros c [Hc _]. by apply not_space. }
    rewrite (trim_start_clean _ Hws). by apply trim_end_clean.
Qed.



End NormalizeProps.

(** * Instances of the further properties *)

Module ExtraInstances.
Import Js Store Pagination Bson Recommendations Routes Normalize.
Import Samples RouteSamples LiteralRegex.

Lemma basic_entries_wanted_witness :
  exists pattern m d,
    query_get (wanted (QString "cat")) "district" = QString pattern
    /\ @regex_compile literal_engine pattern "i" = Some m
    /\ In d (collection_docs db "allPets")
    /\ (forall k, "added_by" <> k ->
          get_field k (entry "p1" (Some "Dhaka") (100 * day)) = get_field k d)
    /\ query_in
         (map to_bson (categoryArray (query_get (wanted (QString "cat")) "categories")))
         (get_field "category" (entry "p1" (Some "Dhaka") (100 * day))) = true
    /\ query_regex m (get_field "location" (entry "p1" (Some "Dhaka") (100 * day)))
       = true
    /\ query_eq (VBool false)
         (get_field "adopted" (entry "p1" (Some "Dhaka") (100 * day))) = true.
Proof.
  apply (@RecommendationExtra.basic_entries_wanted literal_engine db "allPets"
           (wanted (QString "cat")) basic_entries).
  - vm_compute. reflexivity.
  - left. reflexivity.
Defined.

Lemma advanced_entries_wanted_witness :
  exists pattern m d,
    query_get (wanted (QString "cat")) "district" = QString pattern
    /\ @regex_compile literal_engine pattern "i" = Some m
    /\ In d (collection_docs db "allPets")
    /\ (forall k, "added_by" <> k -> "locationScore" <> k ->
                  "freshnessScore" <> k -> "totalScore" <> k ->
                  get_field k (entry "p2" None (99 * day)) = get_field k d)
    /\ query_in
         (map to_bson (categoryArray (query_get (wanted (QString "cat")) "categories")))
         (get_field "category" (entry "p2" None (99 * day))) = true
    /\ (query_regex m (get_field "location" (entry "p2" None (99 * day))) = true
        \/ get_field "location" (entry "p2" None (99 * day)) = None)
    /\ query_eq (VBool false) (get_field "adopted" (entry "p2" None (99 * day)))
       = true.
Proof.
  apply (@RecommendationExtra.advanced_entries_wanted literal_engine db "allPets"
           (100 * day) (wanted (QString "cat")) advanced_entries).
  - vm_compute. reflexivity.
  - right. left. reflexivity.
Defined.

Lemma basic_newest_first_witness :
  let a := entry "p1" (Some "Dhaka") (100 * day) in
  let b := entry "p4" (Some "DHAKA") (85 * day) in
  (forall ca cb, get_field "created_at" a = Some (VDate ca) ->
                 get_field "created_at" b = Some (VDate cb) -> cb <= ca)
  /\ (forall sa sb, get_field "created_at" a = Some (VStr sa) ->
                    get_field "created_at" b = Some (VStr sb) ->
                    String.compare sa sb <> Lt)
  /\ (forall sa cb, get_field "created_at" a = Some (VStr sa) ->
                    get_field "created_at" b = Some (VDate cb) -> False).
Proof.
  apply (@RecommendationExtra.basic_newest_first literal_engine db "allPets"
           (wanted (QString "cat")) basic_entries 0 1).
  - vm_compute. reflexivity.
  - lia.
  - reflexivity.
  - reflexivity.
Defined.

Lemma categories_as_set_witness :
  @getPetRecommendations literal_engine db "allPets"
    (<["categories" := QArray ["cat"; "dog"]]> (wanted QUndefined))
  = @getPetRecommendations literal_engine db "allPets"
      (<["categories" := QArray ["dog"; "cat"; "cat"]]> (wanted QUndefined))
  /\ @getAdvancedPetRecommendations literal_engine db "allPets" (100 * day)
       (<["categories" := QArray ["cat"; "dog"]]> (wanted QUndefined))
     = @getAdvancedPetRecommendations literal_engine db "allPets" (100 * day)
         (<["categories" := QArray ["dog"; "cat"; "cat"]]> (wanted QUndefined)).
Proof.
  apply (@RecommendationExtra.categories_as_set literal_engine db "allPets"
           (100 * day) (wanted QUndefined) ["cat"; "dog"] ["dog"; "cat"; "cat"]).
  intros c. simpl. tauto.
Defined.

Lemma no_categories_no_named_witness :
  (forall body e s,
     @getPetRecommendations literal_engine with_stray "allPets" no_categories
     = Json200 body ->
     In e body -> get_field "category" e <> Some (VStr s))
  /\ (forall body e s,
        @getAdvancedPetRecommendations literal_engine with_stray "allPets"
          (100 * day) no_categories = Json200 body ->
        In e body -> get_field "category" e <> Some (VStr s)).
Proof.
  apply (@RecommendationExtra.no_categories_no_named literal_engine with_stray
           "allPets" (100 * day) no_categories).
  vm_compute. reflexivity.
Defined.


Lemma advanced_rejects_non_dates_witness :
  exists message,
    @getAdvancedPetRecommendations literal_engine iso_listing "allPets"
      (100 * day) (wanted (QString "cat"))
    = Json500 "Failed to fetch recommendations" message.
Proof.
  apply (@RecommendationExtra.advanced_rejects_non_dates literal_engine
           iso_listing "allPets" (100 * day) (wanted (QString "cat")) "dhaka"
           dhaka iso_pet (VStr "2025-01-01T00:00:00.000Z")).
  - vm_compute. reflexivity.
  - reflexivity.
  - left. reflexivity.
  - vm_compute. reflexivity.
  - reflexivity.
  - discriminate.
  - intros ms. discriminate.
Defined.

Lemma added_pet_breaks_advanced_witness :
  (exists message,
     @getAdvancedPetRecommendations literal_engine after_add "allPets"
       (100 * day) (wanted (QString "cat"))
     = Json500 "Failed to fetch recommendations" message)
  /\ (exists recommendations,
        @getPetRecommendations literal_engine after_add "allPets"
          (wanted (QString "cat")) = Json200 recommendations).
Proof.
  apply (@RecommendationExtra.added_pet_breaks_advanced literal_engine
           sample_format (VOid "p9") db after_add new_pet (VOid "p9") 0
           (100 * day) (wanted (QString "cat")) "dhaka" dhaka 12).
  - vm_compute. reflexivity.
  - vm_compute. reflexivity.
  - reflexivity.
  - vm_compute. reflexivity.
  - lia.
  - vm_compute. reflexivity.
Defined.


Lemma category_pets_page_witness :
  let page := {| items := [pet "p1" "cat" (Some "Dhaka") (100 * day);
                           pet "p2" "cat" None (99 * day)];
                 nextId := Some 2; previousId := None; total := 4 |} in
  exists m,
    @regex_compile anchored_engine
      ("^" ++ toString (query_get (in_category "CAT") "category") ++ "$")%string
      "i" = Some m
    /\ total page
       = Z.of_nat (length (List.filter (category_filter m)
                             (collection_docs db "allPets")))
    /\ forall d, In d (items page) ->
         In d (collection_docs db "allPets")
         /\ query_regex m (get_field "category" d) = true
         /\ query_eq (VBool false) (get_field "adopted" d) = true.
Proof.
  apply (@RouteProps.category_pets_page anchored_engine db (in_category "CAT")).
  vm_compute. reflexivity.
Defined.

Lemma normalize_normal_form_witness :
  "guineapig"
  = remove_all space_or_underscore (toLowerCase (toString (QString "Guinea Pig")))
  /\ Forall (fun c => is_white_space c = false /\ c <> "_"%char /\ js_lower c = c)
       (chars "guineapig")
  /\ normalize (QString "guineapig") = Some "guineapig"%string.
Proof.
  apply (NormalizeProps.normalize_normal_form (QString "Guinea Pig") "guineapig").
  reflexivity.
Defined.



End ExtraInstances.
